(** * moodle-ws-client: a shallow embedding of [lib/moodleWSClient.js]

    The module exports one class, [MoodleWSClient].  Its constructor and its
    methods [submit] and [registerShortcut] validate their [arguments] with
    constraint lists, store or assemble plain objects, and (for the shortcut)
    attach a bound function to the instance.

    JavaScript objects are mutable and passed by reference, so the embedding
    keeps an explicit store of objects and threads it through a small
    state-and-exception monad.  The three packages the file requires
    (validate-params with validate.js, moment, request-promise-native) are not
    part of the repository: their entry points are kept as the fields of an
    environment record, and the validation pipeline itself is modelled from
    the specification. *)

From Stdlib Require Import QArith Ascii String Sorted.
From stdpp Require Import gmap strings list fin_maps.

Local Open Scope string_scope.

(** ** Values and the object store *)

Module JS.

(** A JavaScript number: a finite value (kept exact, as a rational) or NaN. *)
Inductive Number :=
| Fin (q : Q)
| NaN.

(** The methods of the class prototype. *)
Inductive Method :=
| M_moodleUrl
| M_apiUrl
| M_submit
| M_registerShortcut.

Definition loc := nat.

Inductive Value :=
| VUndefined
| VNull
| VBool (b : bool)
| VNum (n : Number)
| VStr (s : string)
| VRef (l : loc)                                          (* an object of the store *)
| VMethod (m : Method)                                    (* a prototype method, as a function value *)
| VBound (target : Value) (this : Value) (a1 a2 : Value).  (* [target.bind(this, a1, a2)] *)

(** What kind of object a store cell holds: a plain object (a literal), a
    duration object of moment (carrying its length in milliseconds), an
    instance of [MoodleWSClient], or an object whose prototype an assignment
    to [__proto__] has replaced by the value it carries: such an object is no
    longer an instance or a duration and inherits nothing from its class.
    The one value the source installs that way is a bound function (in
    [registerShortcut]); what an object would inherit through a replacing
    prototype that is itself an object of the store is not followed. *)
Inductive Class :=
| Plain
| Duration (ms : Number)
| Instance
| Reparented (proto : Value).

Record Obj := { cls : Class; props : gmap string Value }.

Abbreviation Heap := (list Obj).

Definition int (z : Z) : Value := VNum (Fin (inject_Z z)).

(** *** Primitive predicates of validate.js and of the language *)

Definition isDefined (v : Value) : bool :=
  match v with VUndefined | VNull => false | _ => true end.

Definition isString (v : Value) : bool :=
  match v with VStr _ => true | _ => false end.

(** [validate.isObject]: [obj === Object(obj)], so functions count. *)
Definition isObject (v : Value) : bool :=
  match v with VRef _ | VMethod _ | VBound _ _ _ _ => true | _ => false end.

Definition isFunction (v : Value) : bool :=
  match v with VMethod _ | VBound _ _ _ _ => true | _ => false end.

Definition typeof (v : Value) : string :=
  match v with
  | VUndefined => "undefined"
  | VNull => "object"
  | VBool _ => "boolean"
  | VNum _ => "number"
  | VStr _ => "string"
  | VRef _ => "object"
  | VMethod _ | VBound _ _ _ _ => "function"
  end.

(** [!v] is [negb (truthy v)]. *)
Definition truthy (v : Value) : bool :=
  match v with
  | VUndefined | VNull => false
  | VBool b => b
  | VNum (Fin q) => negb (Qnum q =? 0)%Z
  | VNum NaN => false
  | VStr s => negb (String.eqb s "")
  | _ => true
  end.

(** Characters.  Strings are sequences of 8-bit characters; case mapping and
    the character classes of the patterns act on the ASCII range. *)
Definition code (c : ascii) : nat := nat_of_ascii c.

Definition between (lo hi : nat) (c : ascii) : bool :=
  (lo <=? code c)%nat && (code c <=? hi)%nat.

Definition is_lower : ascii -> bool := between 97 122.
Definition is_upper : ascii -> bool := between 65 90.
Definition is_digit : ascii -> bool := between 48 57.
Definition is_underscore (c : ascii) : bool := (code c =? 95)%nat.
Definition is_space (c : ascii) : bool :=
  between 9 13 c || (code c =? 32)%nat || (code c =? 160)%nat.
Definition is_newline (c : ascii) : bool :=
  (code c =? 10)%nat || (code c =? 13)%nat.

Definition upper_char (c : ascii) : ascii :=
  if is_lower c then ascii_of_nat (code c - 32) else c.
Definition lower_char (c : ascii) : ascii :=
  if is_upper c then ascii_of_nat (code c + 32) else c.

Fixpoint map_string (f : ascii -> ascii) (s : string) : string :=
  match s with
  | EmptyString => EmptyString
  | String c s' => String (f c) (map_string f s')
  end.

Fixpoint all_chars (p : ascii -> bool) (s : string) : bool :=
  match s with
  | EmptyString => true
  | String c s' => p c && all_chars p s'
  end.

Definition toUpperCase : string -> string := map_string upper_char.
Definition toLowerCase : string -> string := map_string lower_char.

(** [s.match(/\/$/)] as a test: the last character of [s] is a slash. *)
Fixpoint ends_with_slash (s : string) : bool :=
  match s with
  | EmptyString => false
  | String c EmptyString => (code c =? 47)%nat
  | String _ s' => ends_with_slash s'
  end.

(** [validate.isEmpty]: null and undefined, strings of white space only and
    objects without an enumerable property are empty; functions, numbers and
    booleans are not.  A duration object carries its fields and is not empty. *)
Definition isEmpty (h : Heap) (v : Value) : bool :=
  match v with
  | VUndefined | VNull => true
  | VStr s => all_chars is_space s
  | VRef l =>
      match h !! l with
      | Some o =>
          match cls o with
          | Duration _ => false
          | _ => bool_decide (props o = ∅)
          end
      | None => false
      end
  | _ => false
  end.

(** [validateParams.isPlainObject], the test of the [dictionary] validator:
    the value is tagged [[object Object]].  Every object of the store is, an
    instance of the class and a duration object as much as a literal;
    functions and primitive values are not. *)
Definition isPlainObject (h : Heap) (v : Value) : bool :=
  match v with
  | VRef l => match h !! l with
              | Some _ => true
              | None => false
              end
  | _ => false
  end.

(** [moment.isDuration(v)] and [v.asMilliseconds()]. *)
Definition isDuration (h : Heap) (v : Value) : bool :=
  match v with
  | VRef l => match h !! l with
              | Some o => match cls o with Duration _ => true | _ => false end
              | None => false
              end
  | _ => false
  end.

Definition asMilliseconds (h : Heap) (v : Value) : Number :=
  match v with
  | VRef l => match h !! l with
              | Some o => match cls o with Duration ms => ms | _ => NaN end
              | None => NaN
              end
  | _ => NaN
  end.

(** The enumerable properties a [for ... in] loop visits. *)
Definition enumerate (h : Heap) (v : Value) : gmap string Value :=
  match v with
  | VRef l => match h !! l with Some o => props o | None => ∅ end
  | _ => ∅
  end.

(** What [moment.duration] is given: a string, or an object, of which it
    reads the fields. *)
Inductive DurationInput :=
| FromString (s : string)
| FromObject (fields : gmap string Value).

Definition duration_input (h : Heap) (v : Value) : DurationInput :=
  match v with
  | VStr s => FromString s
  | _ => FromObject (enumerate h v)
  end.

(** [n > 0], false for NaN. *)
Definition gt0 (n : Number) : bool :=
  match n with Fin q => (0 <? Qnum q)%Z | NaN => false end.

Definition isInteger (n : Number) : bool :=
  match n with Fin q => (Qnum q mod Zpos (Qden q) =? 0)%Z | NaN => false end.

End JS.
Export JS.

(** ** Failures and the state-and-exception monad *)

(** A validation failure names the parameter, the key inside it when the
    parameter is a dictionary, the validator that rejected the value, and the
    value itself. *)
Record ValidationFailure := {
  parameterName : string;
  attribute : option string;
  reason : string;
  offendingValue : Value
}.

Inductive Error :=
| ValidationError (f : ValidationFailure)
| TypeError.

Inductive Outcome (A : Type) :=
| Ok (a : A) (h : Heap)
| Throw (e : Error) (h : Heap).
Arguments Ok {A} a h.
Arguments Throw {A} e h.

Definition M (A : Type) : Type := Heap -> Outcome A.

Definition ret {A} (a : A) : M A := fun h => Ok a h.
Definition throw {A} (e : Error) : M A := fun h => Throw e h.
Definition bind {A B} (k : A -> M B) (m : M A) : M B :=
  fun h => match m h with
           | Ok a h' => k a h'
           | Throw e h' => Throw e h'
           end.
Definition read_heap : M Heap := fun h => Ok h h.

#[global] Instance M_ret : MRet M := @ret.
#[global] Instance M_bind : MBind M := @bind.

(** A new object, as an object literal or [new] makes one. *)
Definition alloc (o : Obj) : M Value :=
  fun h => Ok (VRef (length h)) (h ++ [o]).

(** [Object.prototype] carries an accessor named [__proto__]; every object
    has it in reach but one whose prototype was replaced by null. *)
Definition has_proto_accessor (c : Class) : bool :=
  match c with Reparented VNull => false | _ => true end.

(** What an object inherits: the methods of the class, for an instance; for
    an object whose prototype was replaced, that prototype under
    [__proto__] (the accessor of [Object.prototype] returns it).  The
    members of [Object.prototype] and of [Function.prototype] are not
    modelled, and the prototype objects of the classes are no values of the
    model: [__proto__] reads as undefined on an object that still has the
    prototype of its class. *)
Definition inherited (c : Class) (k : string) : Value :=
  match c with
  | Instance =>
      if String.eqb k "moodleUrl" then VMethod M_moodleUrl
      else if String.eqb k "apiUrl" then VMethod M_apiUrl
      else if String.eqb k "submit" then VMethod M_submit
      else if String.eqb k "registerShortcut" then VMethod M_registerShortcut
      else VUndefined
  | Reparented p =>
      if String.eqb k "__proto__" && has_proto_accessor c then p else VUndefined
  | _ => VUndefined
  end.

(** [v.k] read on a known store: an own property first, then an inherited one.
    Properties of function objects and of primitive values are not modelled
    and read as undefined. *)
Definition member (h : Heap) (v : Value) (k : string) : Value :=
  match v with
  | VRef l =>
      match h !! l with
      | Some o => match props o !! k with
                  | Some x => x
                  | None => inherited (cls o) k
                  end
      | None => VUndefined
      end
  | _ => VUndefined
  end.

(** [v.k] as an expression: reading a property of undefined or null throws. *)
Definition get (v : Value) (k : string) : M Value :=
  fun h => if isDefined v then Ok (member h v k) h else Throw TypeError h.

(** Whether [o[k] = x] runs the setter of that accessor: the key is
    [__proto__], the object has no own property of that name and has the
    accessor in reach. *)
Definition runs_proto_setter (o : Obj) (k : string) : bool :=
  String.eqb k "__proto__"
  && match props o !! k with Some _ => false | None => true end
  && has_proto_accessor (cls o).

(** [o[k] = x] on the object itself.  An ordinary assignment makes or updates
    an own property.  The setter of [__proto__] makes none: it replaces the
    prototype when [x] is an object, a function or null and does nothing for
    another value.  (It throws for a value that would make the prototype
    chain cyclic, which a function cannot and which is not modelled.) *)
Definition assign (k : string) (x : Value) (o : Obj) : Obj :=
  if runs_proto_setter o k then
    match x with
    | VRef _ | VMethod _ | VBound _ _ _ _ | VNull =>
        {| cls := Reparented x; props := props o |}
    | _ => o
    end
  else {| cls := cls o; props := <[k := x]> (props o) |}.

Definition write (l : loc) (k : string) (x : Value) (h : Heap) : Heap :=
  match h !! l with
  | Some o => <[l := assign k x o]> h
  | None => h
  end.

(** [v.k = x]: the object is updated in place; writing to undefined or null
    throws, a write to a function object or a primitive is not recorded. *)
Definition set (v : Value) (k : string) (x : Value) : M unit :=
  fun h => match v with
           | VRef l => Ok tt (write l k x h)
           | VUndefined | VNull => Throw TypeError h
           | _ => Ok tt h
           end.

(** ** The packages the module requires

    The entry points of the required packages that the source calls and whose
    code is outside the repository: the coercions [c.toString], [c.toNumber]
    and [c.toBoolean] that validate-params hands to every coercion callback,
    [moment.duration(v).asMilliseconds()] for a string or an object [v] (as a
    function of the string or of the fields of the object), the
    [url] validator of validate.js with the options of the constructor
    ([schemes: ['https'], allowLocal: true]), and two conversions of the
    language: of a string to a number ([+s]), and of a value that is not a
    string to a string, as [+] and a computed property name perform it. *)
Record Env := {
  c_toString : Value -> Value;
  c_toNumber : Value -> Number;
  c_toBoolean : Value -> bool;
  moment_duration : DurationInput -> Number;
  url_https : string -> bool;
  unary_plus : string -> Number;
  display : Value -> string
}.

Definition ToString (E : Env) (v : Value) : string :=
  match v with VStr s => s | _ => display E v end.

(** ** Validators and patterns *)

(** The validators the constraint lists of the source name.  [format] carries
    the test of its pattern; [numericality] the two options the source sets;
    [dictionary] the per-key constraints ([dictionary: true] has none). *)
#[local] Unset Elimination Schemes.
Inductive Validator :=
| presence
| hasTypeof (t : string)
| format (pattern : string -> bool)
| url
| numericality (onlyInteger : bool) (greaterThan : Q)
| dictionary (mapConstraints : list (string * list Validator)).
#[local] Set Elimination Schemes.

(** The patterns.  The [format] validator of validate.js accepts a string when
    the first match of the pattern spans the whole string; for each pattern of
    the source that is the test below. *)

(** [/GET|POST|PUT/] *)
Definition pattern_httpMethod (s : string) : bool :=
  String.eqb s "GET" || String.eqb s "POST" || String.eqb s "PUT".

(** [/json|xml/] *)
Definition pattern_wsDataFormat (s : string) : bool :=
  String.eqb s "json" || String.eqb s "xml".

(** [/[a-z_]+/] *)
Definition pattern_wsFunctionName (s : string) : bool :=
  negb (String.eqb s "") && all_chars (fun c => is_lower c || is_underscore c) s.

(** [/[a-zA-Z_][a-zA-Z_]*/] *)
Definition pattern_jsMethodName (s : string) : bool :=
  negb (String.eqb s "")
  && all_chars (fun c => is_lower c || is_upper c || is_underscore c) s.

(** [/.*\//]: the dot stops at a line break. *)
Definition pattern_trailingSlash (s : string) : bool :=
  ends_with_slash s && all_chars (fun c => negb (is_newline c)) s.

(** ["[a-z0-9]{32}"] *)
Definition pattern_token (s : string) : bool :=
  (String.length s =? 32)%nat && all_chars (fun c => is_lower c || is_digit c) s.

(** What the documentation of the token asks for: 32 lower-case hexadecimal
    characters. *)
Definition is_hex_lower (c : ascii) : bool := is_digit c || between 97 102 c.
Definition is_moodle_token (s : string) : bool :=
  (String.length s =? 32)%nat && all_chars is_hex_lower s.

Section Validation.
Context (E : Env).

Definition Rejection : Type := option string * string * Value.

(** Modelled from the spec: the checks of validate.js and of validate-params
    that the constraint lists name, after the constraint primitives of the
    specification.  One validator on one value: [None] when it accepts.
    [presence] rejects an empty value ([validate.isEmpty]); every other
    validator accepts undefined and null.  [numericality] converts a string
    that is not blank to a number before it checks.  [dictionary] takes
    every object for a dictionary (an instance of a class and a duration
    object included), rejects a function and a primitive value, and then
    checks the keys it has constraints for. *)
Fixpoint rejects (h : Heap) (c : Validator) (v : Value) {struct c} : option Rejection :=
  match c with
  | presence =>
      if isEmpty h v then Some (None, "presence", v) else None
  | hasTypeof t =>
      if isDefined v && negb (String.eqb (typeof v) t)
      then Some (None, "hasTypeof", v) else None
  | format pattern =>
      match v with
      | VUndefined | VNull => None
      | VStr s => if pattern s then None else Some (None, "format", v)
      | _ => Some (None, "format", v)
      end
  | url =>
      match v with
      | VUndefined | VNull => None
      | VStr s => if url_https E s then None else Some (None, "url", v)
      | _ => Some (None, "url", v)
      end
  | numericality onlyInteger greaterThan =>
      let check (n : Number) :=
        match n with
        | Fin q =>
            if onlyInteger && negb (isInteger (Fin q)) then Some (None, "numericality", v)
            else if Qle_bool q greaterThan then Some (None, "numericality", v)
            else None
        | NaN => Some (None, "numericality", v)
        end in
      match v with
      | VUndefined | VNull => None
      | VNum n => check n
      | VStr s =>
          if all_chars is_space s then Some (None, "numericality", v)
          else check (unary_plus E s)
      | _ => Some (None, "numericality", v)
      end
  | dictionary mapConstraints =>
      if negb (isDefined v) then None
      else if negb (isPlainObject h v) then Some (None, "dictionary", v)
      else
        (fix keys (mc : list (string * list Validator)) : option Rejection :=
           match mc with
           | [] => None
           | (k, cs) :: mc' =>
               match
                 (fix each (cs : list Validator) : option Rejection :=
                    match cs with
                    | [] => None
                    | c' :: cs' =>
                        match rejects h c' (member h v k) with
                        | Some (_, r, x) => Some (Some k, r, x)
                        | None => each cs'
                        end
                    end) cs
               with
               | Some r => Some r
               | None => keys mc'
               end
           end) mapConstraints
  end.

Fixpoint first_rejection (h : Heap) (cs : list Validator) (v : Value) : option Rejection :=
  match cs with
  | [] => None
  | c :: cs' =>
      match rejects h c v with
      | Some r => Some r
      | None => first_rejection h cs' v
      end
  end.

(** ** The validation pipeline *)

(** One entry of a constraint list: the per-parameter options ([name],
    [defaultWhenUndefined], [defaultWhenEmpty], [coerce], written in the source
    either inside [paramOptions] or with the [vpopt_] prefix) and the
    validators. *)
Record Constraints := {
  name : string;
  defaultWhenUndefined : option Value;
  defaultWhenEmpty : option Value;
  coerce : option (Value -> M Value);
  validators : list Validator
}.

(** [validateParams.extendObject({vpopt_name: n, presence: true}, c)] *)
Definition extendObject (n : string) (c : Constraints) : Constraints :=
  {| name := n;
     defaultWhenUndefined := defaultWhenUndefined c;
     defaultWhenEmpty := defaultWhenEmpty c;
     coerce := coerce c;
     validators := presence :: validators c |}.

(** [validateParams.paramToAttrConstraints(c)]: the validators, without the
    per-parameter options. *)
Definition paramToAttrConstraints (c : Constraints) : list Validator := validators c.

(** Modelled from the spec: [validateParams.assert] of the validate-params
    package, the Validator of the specification (its section 4.3), in the five
    definitions that follow.  A declared default replaces an absent (or empty)
    argument, one default at most; the coercion runs on the result, before any
    check; the checks then run in declaration order and the first parameter
    that fails is the failure thrown.  The normalised arguments are returned
    as one object indexed by parameter name, filled in declaration order, and
    each constraint entry checks the value found under its name. *)
Definition apply_default (h : Heap) (c : Constraints) (v : Value) : Value :=
  match v, defaultWhenUndefined c with
  | VUndefined, Some d => d
  | _, _ =>
      match defaultWhenEmpty c with
      | Some d => if isEmpty h v then d else v
      | None => v
      end
  end.

(** Modelled from the spec: the default and the coercion of one parameter. *)
Definition normalise_one (c : Constraints) (v : Value) : M Value :=
  h ← read_heap;
  let v := apply_default h c v in
  match coerce c with
  | Some f => f v
  | None => mret v
  end.

(** Modelled from the spec: the arguments, normalised in declaration order
    and stored under their names. *)
Fixpoint normalise (cs : list Constraints) (arguments : list Value)
    (bag : gmap string Value) : M (gmap string Value) :=
  match cs with
  | [] => mret bag
  | c :: cs' =>
      v ← normalise_one c (hd VUndefined arguments);
      normalise cs' (tl arguments) (<[name c := v]> bag)
  end.

Definition arg (bag : gmap string Value) (n : string) : Value :=
  default VUndefined (bag !! n).

(** Modelled from the spec: the first parameter, in declaration order, that
    fails one of its checks. *)
Fixpoint first_failure (h : Heap) (cs : list Constraints)
    (bag : gmap string Value) : option ValidationFailure :=
  match cs with
  | [] => None
  | c :: cs' =>
      match first_rejection h (validators c) (arg bag (name c)) with
      | Some (k, r, x) =>
          Some {| parameterName := name c; attribute := k;
                  reason := r; offendingValue := x |}
      | None => first_failure h cs' bag
      end
  end.

(** Modelled from the spec: normalise, check, and throw the first failure or
    return the normalised arguments. *)
Definition assert (arguments : list Value) (cs : list Constraints)
    : M (gmap string Value) :=
  bag ← normalise cs arguments ∅;
  h ← read_heap;
  match first_failure h cs bag with
  | Some f => throw (ValidationError f)
  | None => mret bag
  end.

End Validation.

(** ** The module: globals, constraints and the class *)

Definition MOODLE_API_PATH : string := "webservice/rest/server.php".

Section Client.
Context (E : Env).

(** *** [vpCons]: the reusable constraints *)

(** The [vpopt_coerce] of [httpMethod]. *)
Definition httpMethod_coerce (v : Value) : Value :=
  let v := c_toString E v in
  match v with
  | VStr s => VStr (toUpperCase s)
  | _ => v
  end.

(** The [vpopt_coerce] shared by [wsDataFormat] and [wsFunctionName]. *)
Definition lowercase_coerce (v : Value) : Value :=
  let v := c_toString E v in
  match v with
  | VStr s => VStr (toLowerCase s)
  | _ => v
  end.

(** The [vpopt_coerce] of [timeoutMS]. *)
Definition timeoutMS_coerce (h : Heap) (v : Value) : Number :=
  if isDuration h v then asMilliseconds h v
  else if isObject v || isString v then
    let ms := moment_duration E (duration_input h v) in
    if gt0 ms then ms else c_toNumber E v
  else c_toNumber E v.

Definition pure (f : Value -> Value) : option (Value -> M Value) :=
  Some (fun v => mret (f v)).

Definition vpCons_httpMethod : Constraints :=
  {| name := "";
     defaultWhenUndefined := None;
     defaultWhenEmpty := Some (VStr "GET");
     coerce := pure httpMethod_coerce;
     validators := [hasTypeof "string"; format pattern_httpMethod] |}.

Definition vpCons_wsDataFormat : Constraints :=
  {| name := "";
     defaultWhenUndefined := None;
     defaultWhenEmpty := Some (VStr "json");
     coerce := pure lowercase_coerce;
     validators := [hasTypeof "string"; format pattern_wsDataFormat] |}.

Definition vpCons_wsFunctionName : Constraints :=
  {| name := "";
     defaultWhenUndefined := None;
     defaultWhenEmpty := None;
     coerce := pure lowercase_coerce;
     validators := [hasTypeof "string"; format pattern_wsFunctionName] |}.

Definition vpCons_timeoutMS : Constraints :=
  {| name := "";
     defaultWhenUndefined := None;
     defaultWhenEmpty := Some (int 5000);
     coerce := Some (fun v => h ← read_heap; mret (VNum (timeoutMS_coerce h v)));
     validators := [numericality true 0] |}.

Definition vpCons_jsMethodName : Constraints :=
  {| name := "";
     defaultWhenUndefined := None;
     defaultWhenEmpty := None;
     coerce := pure (c_toString E);
     validators := [hasTypeof "string"; format pattern_jsMethodName] |}.

(** *** The constructor *)

(** The coercion of the base URL: a string gets a trailing slash. *)
Definition moodleBaseUrl_coerce (v : Value) : Value :=
  match v with
  | VStr s => if negb (ends_with_slash s) then VStr (s +:+ "/") else v
  | _ => v
  end.

(** The coercion of [options]: each option is defaulted or coerced and written
    back into the object that was passed, which is returned. *)
Definition options_coerce (v : Value) : M Value :=
  if negb (isObject v) then mret v
  else
    a ← get v "acceptUntrustedTLSCert";
    set v "acceptUntrustedTLSCert"
        (if isDefined a then VBool (c_toBoolean E a) else VBool false);;
    h ← read_heap;
    d ← get v "dataFormat";
    (if negb (isEmpty h d)
     then set v "dataFormat" (lowercase_coerce d)
     else set v "dataFormat" (VStr "json"));;
    h ← read_heap;
    t ← get v "timeout";
    (if negb (isEmpty h t)
     then set v "timeout" (VNum (timeoutMS_coerce h t))
     else set v "timeout" (int 5000));;
    mret v.

(** The constraint list of the constructor; [dflt] is the object the literal
    [{}] of [defaultWhenUndefined] creates. *)
Definition constructor_constraints (dflt : Value) : list Constraints :=
  [ {| name := "moodleBaseUrl";
       defaultWhenUndefined := None;
       defaultWhenEmpty := None;
       coerce := pure moodleBaseUrl_coerce;
       validators := [presence; url; format pattern_trailingSlash] |};
    {| name := "token";
       defaultWhenUndefined := None;
       defaultWhenEmpty := None;
       coerce := None;
       validators := [presence; format pattern_token] |};
    {| name := "options";
       defaultWhenUndefined := Some dflt;
       defaultWhenEmpty := None;
       coerce := Some options_coerce;
       validators :=
         [dictionary
            [("acceptUntrustedTLSCert", [presence; hasTypeof "boolean"]);
             ("dataFormat", presence :: paramToAttrConstraints vpCons_wsDataFormat);
             ("timeout", presence :: paramToAttrConstraints vpCons_timeoutMS)]] |} ].

Definition empty_object : Obj := {| cls := Plain; props := ∅ |}.

(** [new MoodleWSClient(...arguments)] *)
Definition MoodleWSClient (arguments : list Value) : M Value :=
  this ← alloc {| cls := Instance; props := ∅ |};
  dflt ← alloc empty_object;
  args ← assert E arguments (constructor_constraints dflt);
  set this "_moodleUrl" (arg args "moodleBaseUrl");;
  set this "_token" (arg args "token");;
  set this "_options" (arg args "options");;
  mret this.

(** *** The accessors *)

Definition moodleUrl (this : Value) : M Value :=
  get this "_moodleUrl".

Definition apiUrl (this : Value) : M Value :=
  u ← get this "_moodleUrl";
  mret (VStr (ToString E u +:+ MOODLE_API_PATH)).

(** *** [submit] *)

(** The object [reqOpts] that [submit] builds. *)
Record ReqOpts := {
  uri : Value;
  method : Value;
  qs : gmap string Value;
  strictSSL : bool;
  timeout : Value
}.

Definition submit_constraints (dflt : Value) : list Constraints :=
  [ extendObject "method" vpCons_httpMethod;
    extendObject "wsFunctionName" vpCons_wsFunctionName;
    {| name := "wsParameters";
       defaultWhenUndefined := None;
       defaultWhenEmpty := None;
       coerce := None;
       validators := [dictionary []] |};
    {| name := "wsParameters";
       defaultWhenUndefined := Some dflt;
       defaultWhenEmpty := None;
       coerce := None;
       validators := [dictionary []] |} ].

(** The first statement of [submit]: the validated arguments. *)
Definition submit_args (arguments : list Value) : M (gmap string Value) :=
  dflt ← alloc empty_object;
  assert E arguments (submit_constraints dflt).

(** The loop [for(param in args.wsParameters) reqOpts.qs[param] = ...]: each
    enumerable entry is assigned to the object [qs], a literal.  The
    assignment is that of the language, so an entry named [__proto__] runs
    the setter and leaves the properties of [qs] as they are. *)
Definition for_in_assign (fixed d : gmap string Value) : gmap string Value :=
  props (map_fold assign {| cls := Plain; props := fixed |} d).

(** The body of [submit] up to its last statement: the value of the local
    variable [reqOpts] when the loop over [args.wsParameters] has run. *)
Definition submit_reqOpts (this : Value) (arguments : list Value) : M ReqOpts :=
  args ← submit_args arguments;
  u ← get this "apiUrl";
  tok ← get this "_token";
  opts ← get this "_options";
  fmt ← get opts "dataFormat";
  untrusted ← get opts "acceptUntrustedTLSCert";
  tmo ← get opts "timeout";
  h ← read_heap;
  mret {| uri := u;
          method := arg args "method";
          qs := for_in_assign
                  (<["moodlewsrestformat" := fmt]>
                     (<["wsfunction" := arg args "wsFunctionName"]>
                        (<["wstoken" := tok]> ∅)))
                  (enumerate h (arg args "wsParameters"));
          strictSSL := negb (truthy untrusted);
          timeout := tmo |}.

(** [submit]: the body has no [return] statement, the call evaluates to
    undefined. *)
Definition submit (this : Value) (arguments : list Value) : M Value :=
  submit_reqOpts this arguments;;
  mret VUndefined.

(** *** [registerShortcut] *)

Definition registerShortcut_constraints : list Constraints :=
  [ extendObject "shortcut" vpCons_jsMethodName;
    extendObject "method" vpCons_httpMethod;
    extendObject "wsFunctionName" vpCons_wsFunctionName ].

(** [f.bind(this, a1, a2)] *)
Definition bind_function (f this a1 a2 : Value) : M Value :=
  if isFunction f then mret (VBound f this a1 a2) else throw TypeError.

Definition registerShortcut (this : Value) (arguments : list Value) : M Value :=
  args ← assert E arguments registerShortcut_constraints;
  let self := this in
  sub ← get self "submit";
  func ← bind_function sub self (arg args "method") (arg args "wsFunctionName");
  set this (ToString E (arg args "shortcut")) func;;
  mret this.

(** *** Calls *)

Definition invoke (m : Method) (this : Value) (arguments : list Value) : M Value :=
  match m with
  | M_moodleUrl => moodleUrl this
  | M_apiUrl => apiUrl this
  | M_submit => submit this arguments
  | M_registerShortcut => registerShortcut this arguments
  end.

(** [f.call(this, ...arguments)]: a bound function ignores [this] and puts its
    two bound arguments first. *)
Fixpoint call (f : Value) (this : Value) (arguments : list Value) : M Value :=
  match f with
  | VMethod m => invoke m this arguments
  | VBound target bthis a1 a2 => call target bthis (a1 :: a2 :: arguments)
  | _ => throw TypeError
  end.

(** [obj.k(...arguments)] *)
Definition call_method (obj : Value) (k : string) (arguments : list Value) : M Value :=
  f ← get obj k;
  call f obj arguments.

End Client.

(** The number a string of decimal digits denotes. *)
Fixpoint decimal (s : string) (acc : Z) : Z :=
  match s with
  | EmptyString => acc
  | String c s' => decimal s' (10 * acc + Z.of_nat (code c - 48))
  end.

(** ** A sample environment

    A small executable instance of the environment, used to run the model on
    concrete calls: the coercions act on primitive values, a string or an
    object yields a duration of a plain [milliseconds] count when it is one,
    a URL is accepted when it starts with the secure scheme, and a string of
    decimal digits converts to the number it denotes. *)
Definition sampleEnv : Env :=
  {| c_toString := fun v =>
       match v with
       | VStr s => VStr s
       | VBool true => VStr "true"
       | VBool false => VStr "false"
       | _ => VStr ""
       end;
     c_toNumber := fun v =>
       match v with
       | VNum n => n
       | VBool true => Fin 1
       | VBool false => Fin 0
       | _ => NaN
       end;
     c_toBoolean := truthy;
     moment_duration := fun d =>
       match d with
       | FromObject m =>
           match m !! "milliseconds" with
           | Some (VNum n) => n
           | _ => Fin 0
           end
       | FromString _ => Fin 0
       end;
     url_https := String.prefix "https://";
     unary_plus := fun s =>
       if negb (String.eqb s "") && all_chars is_digit s
       then Fin (inject_Z (decimal s 0)) else NaN;
     display := fun _ => "" |}.

(** ** Notions used in the statements *)

Section Notions.
Context (E : Env).

Definition instance_object : Obj := {| cls := Instance; props := ∅ |}.

(** The store in which the constructor validates its arguments: the caller's
    store, the new instance and the object of the literal default. *)
Definition constructor_heap (h : Heap) : Heap :=
  (h ++ [instance_object]) ++ [empty_object].

(** An argument with a [defaultWhenUndefined]. *)
Definition or_default (d v : Value) : Value :=
  match v with VUndefined => d | _ => v end.

(** The three values the coercion of [options] writes, as functions of the
    value read under each key. *)
Definition accept_value (a : Value) : Value :=
  if isDefined a then VBool (c_toBoolean E a) else VBool false.

Definition dataFormat_value (h : Heap) (d : Value) : Value :=
  if negb (isEmpty h d) then lowercase_coerce E d else VStr "json".

Definition timeout_value (h : Heap) (t : Value) : Value :=
  if negb (isEmpty h t) then VNum (timeoutMS_coerce E h t) else int 5000.

(** The store after each of the three assignments the coercion of [options]
    makes to the object at [l]. *)
Definition after_accept (l : loc) (h : Heap) : Heap :=
  write l "acceptUntrustedTLSCert"
    (accept_value (member h (VRef l) "acceptUntrustedTLSCert")) h.

Definition after_dataFormat (l : loc) (h : Heap) : Heap :=
  let h1 := after_accept l h in
  write l "dataFormat" (dataFormat_value h1 (member h1 (VRef l) "dataFormat")) h1.

Definition options_after (l : loc) (h : Heap) : Heap :=
  let h2 := after_dataFormat l h in
  write l "timeout" (timeout_value h2 (member h2 (VRef l) "timeout")) h2.

(** What the checks of each parameter come to on a value. *)
Definition baseUrl_accepted (v : Value) : bool :=
  match v with
  | VStr s => negb (all_chars is_space s) && url_https E s && pattern_trailingSlash s
  | _ => false
  end.

Definition token_accepted (v : Value) : bool :=
  match v with
  | VStr s => negb (all_chars is_space s) && pattern_token s
  | _ => false
  end.

Definition dataFormat_accepted (v : Value) : bool :=
  match v with
  | VStr s => negb (all_chars is_space s) && pattern_wsDataFormat s
  | _ => false
  end.

Definition timeout_accepted (v : Value) : bool :=
  match v with
  | VNum (Fin q) => isInteger (Fin q) && negb (Qle_bool q 0)
  | _ => false
  end.

(** A data format option that is absent, blank, or a primitive value that
    the coercion turns into an accepted format. *)
Definition dataFormat_option_ok (d : Value) : bool :=
  negb (isObject d) && dataFormat_accepted (dataFormat_value [] d).

(** A value of the caller refers to an object of the caller's store, if it
    refers to one at all. *)
Definition live (h : Heap) (v : Value) : Prop :=
  match v with
  | VRef l => (l < length h)%nat
  | _ => True
  end.

(** The per-key constraints of [options], as the constructor lists them. *)
Definition options_validators : list Validator :=
  [dictionary
     [("acceptUntrustedTLSCert", [presence; hasTypeof "boolean"]);
      ("dataFormat", presence :: paramToAttrConstraints (vpCons_wsDataFormat E));
      ("timeout", presence :: paramToAttrConstraints (vpCons_timeoutMS E))]].

(** The store when the constructor returns: the three assignments to the
    instance at [this]. *)
Definition constructed (this : loc) (u t o : Value) (h : Heap) : Heap :=
  write this "_options" o (write this "_token" t (write this "_moodleUrl" u h)).

(** The three fixed entries of the query of [submit]. *)
Definition fixed_query (tok fn fmt : Value) : gmap string Value :=
  <["moodlewsrestformat" := fmt]> (<["wsfunction" := fn]> (<["wstoken" := tok]> ∅)).

(** The value and the store of an outcome, for naming the result of a call. *)
Definition value_or {A} (d : A) (o : Outcome A) : A :=
  match o with Ok a _ => a | Throw _ _ => d end.

Definition heap_of {A} (o : Outcome A) : Heap :=
  match o with Ok _ h => h | Throw _ h => h end.

Definition no_request : ReqOpts :=
  {| uri := VUndefined; method := VUndefined; qs := ∅;
     strictSSL := false; timeout := VUndefined |}.

(** The failure of the timeout check inside [options]. *)
Definition InvalidDuration (x : Value) : ValidationFailure :=
  {| parameterName := "options"; attribute := Some "timeout";
     reason := "numericality"; offendingValue := x |}.

(** Modelled from the spec: the duration descriptors of its glossary (a
    count of milliseconds, a structured duration, an object, a string) and
    the count of milliseconds a descriptor resolves to: the count itself,
    the length of the structured duration, and for a string or another
    object the length of the duration [moment.duration] makes of it. *)
Definition is_descriptor (v : Value) : bool :=
  match v with VNum _ | VStr _ | VRef _ => true | _ => false end.

Definition descriptor_ms (h : Heap) (v : Value) : Number :=
  match v with
  | VNum n => n
  | _ => if isDuration h v then asMilliseconds h v
         else moment_duration E (duration_input h v)
  end.

(** The descriptors [moment.duration] is asked to parse: a string, or an
    object that is not a duration already. *)
Definition parsed_descriptor (h : Heap) (v : Value) : bool :=
  isString v || isObject v && negb (isDuration h v).

End Notions.

(** ** Sample data *)

Definition sample_url : string := "https://localhost".
Definition sample_token : string := "00000000000000000000000000000000".

(** A string of 32 lower-case letters that are not hexadecimal digits. *)
Definition letters_token : string := "gggggggggggggggggggggggggggggggg".

(** The store and the client that [new MoodleWSClient('https://localhost',
    '000...0')] leaves, starting from an empty store. *)
Definition sample_client : Value := VRef 0.
Definition sample_client_heap : Heap :=
  constructed 0 (VStr "https://localhost/") (VStr sample_token) (VRef 1)
    (options_after sampleEnv 1 (constructor_heap [])).

(** Three dictionaries a caller passes to [submit] or to a shortcut:
    [{wstoken: 'evil', wsfunction: 'hijacked'}], [{courseid: 5}] and [{}];
    with the sample client they sit at locations 2, 3 and 4. *)
Definition override_params : Obj :=
  {| cls := Plain;
     props := <["wsfunction" := VStr "hijacked"]> (<["wstoken" := VStr "evil"]> ∅) |}.
Definition course_params : Obj :=
  {| cls := Plain; props := <["courseid" := int 5]> ∅ |}.
Definition sample_call_heap : Heap :=
  sample_client_heap ++ [override_params; course_params; empty_object].

(** Calls of [submit] on the sample client: with [{}] as third argument, with
    [{courseid: 5}] as third argument, and with [{courseid: 5}] or the
    overriding dictionary bound to [wsParameters]. *)
Definition plain_call : list Value := [VStr "get"; VStr "core_fn"; VRef 4].
Definition course_call : list Value := [VStr "get"; VStr "core_fn"; VRef 3].
Definition course_call_bound : list Value :=
  [VStr "get"; VStr "core_fn"; VRef 3; VRef 3].
Definition override_call : list Value :=
  [VStr "get"; VStr "core_fn"; VRef 2; VRef 2].

Definition request_of (arguments : list Value) : ReqOpts :=
  value_or no_request
    (submit_reqOpts sampleEnv sample_client arguments sample_call_heap).

(** The call [submit('get', 'core_fn', {moodlewsrestformat: 'xml', courseid:
    5})] on the sample client, the dictionary at location 2. *)
Definition format_params : Obj :=
  {| cls := Plain;
     props := <["moodlewsrestformat" := VStr "xml"]> (<["courseid" := int 5]> ∅) |}.
Definition format_call_heap : Heap := sample_client_heap ++ [format_params].
Definition format_call : list Value := [VStr "get"; VStr "core_fn"; VRef 2].
Definition format_request : ReqOpts :=
  value_or no_request
    (submit_reqOpts sampleEnv sample_client format_call format_call_heap).

(** The store after [registerShortcut('getUsers', 'get',
    'core_user_get_users')] on the sample client. *)
Definition shortcut_heap : Heap :=
  heap_of (registerShortcut sampleEnv sample_client
             [VStr "getUsers"; VStr "get"; VStr "core_user_get_users"]
             sample_call_heap).

(** A caller's store with one options object, [{timeout: 10000, verbose: true}]. *)
Definition sample_options : Obj :=
  {| cls := Plain;
     props := <["timeout" := int 10000]> (<["verbose" := VBool true]> ∅) |}.
Definition sample_options_zero : Obj :=
  {| cls := Plain; props := <["timeout" := int 0]> ∅ |}.

(** The store the constructor leaves when given [sample_options]. *)
Definition sample_shared_heap : Heap :=
  constructed 1 (VStr "https://localhost/") (VStr sample_token) (VRef 0)
    (options_after sampleEnv 0 (constructor_heap [sample_options])).

(** A caller's store with a duration object of 30 seconds at location 0 and
    the options [{timeout: <that duration>}] at location 1; and one with the
    options [{timeout: {milliseconds: 250}}] at location 1. *)
Definition sample_duration_heap : Heap :=
  [ {| cls := Duration (Fin (inject_Z 30000)); props := ∅ |};
    {| cls := Plain; props := <["timeout" := VRef 0]> ∅ |} ].
Definition sample_fields_heap : Heap :=
  [ {| cls := Plain; props := <["milliseconds" := int 250]> ∅ |};
    {| cls := Plain; props := <["timeout" := VRef 0]> ∅ |} ].

(** The options [{timeout: {milliseconds: 0}}] at location 1. *)
Definition sample_zero_fields_heap : Heap :=
  [ {| cls := Plain; props := <["milliseconds" := int 0]> ∅ |};
    {| cls := Plain; props := <["timeout" := VRef 0]> ∅ |} ].

(** The options [{timeout: {}}] at location 1, the empty object at location
    0; and the options [{timeout: " "}]. *)
Definition sample_empty_heap : Heap :=
  [ empty_object;
    {| cls := Plain; props := <["timeout" := VRef 0]> ∅ |} ].
Definition sample_options_blank : Obj :=
  {| cls := Plain; props := <["timeout" := VStr " "]> ∅ |}.

(** ** Further notions *)

Section MoreNotions.
Context (E : Env).

(** The three normalised arguments of [registerShortcut]: the name after
    [c.toString], the method after its default and coercion, the function
    name after its coercion. *)
Definition shortcut_name (arguments : list Value) : Value :=
  c_toString E (hd VUndefined arguments).

Definition shortcut_method (h : Heap) (arguments : list Value) : Value :=
  httpMethod_coerce E
    (if isEmpty h (hd VUndefined (tl arguments)) then VStr "GET"
     else hd VUndefined (tl arguments)).

Definition shortcut_function (arguments : list Value) : Value :=
  lowercase_coerce E (hd VUndefined (tl (tl arguments))).

End MoreNotions.

Section SubmitNotions.
Context (E : Env).

(** The normalised method and function name of [submit]; the store in which
    the method is defaulted is the one that holds the literal default. *)
Definition submit_method (h1 : Heap) (arguments : list Value) : Value :=
  httpMethod_coerce E
    (if isEmpty h1 (hd VUndefined arguments) then VStr "GET"
     else hd VUndefined arguments).

Definition submit_function (arguments : list Value) : Value :=
  lowercase_coerce E (hd VUndefined (tl arguments)).

End SubmitNotions.

(** Options with an upper-case data format, and with a timeout of a
    millisecond and a half. *)
Definition sample_format_options : Obj :=
  {| cls := Plain; props := <["dataFormat" := VStr "XML"]> ∅ |}.
Definition sample_options_fraction : Obj :=
  {| cls := Plain; props := <["timeout" := VNum (Fin (3 # 2))]> ∅ |}.

(** ** The test helper [dummyBasicTypesExcept] of [test/test.js] *)

Module Test.

(** The keys of [DUMMY_BASIC_TYPES], in the order its literal lists them. *)
Definition DUMMY_BASIC_TYPES_keys : list string :=
  ["undef"; "bool"; "num"; "str"; "arr"; "obj"; "fn"].

(** [Array.prototype.sort] without a comparator, on strings: ascending by
    character code. *)
Fixpoint insert_sorted (x : string) (l : list string) : list string :=
  match l with
  | [] => [x]
  | y :: l' => if String.leb x y then x :: l else y :: insert_sorted x l'
  end.

Definition sort (l : list string) : list string := foldr insert_sorted [] l.

(** The first loop: [exclude_lookup[arguments[i]] = true]. *)
Definition exclude_lookup (arguments : list string) : gmap string Value :=
  fold_left (fun m a => <[a := VBool true]> m) arguments ∅.

(** The second loop: [forEach] over the sorted keys, pushing a name unless
    [exclude_lookup[tn]] is truthy. *)
Fixpoint forEach_push (ex : gmap string Value) (keys ans : list string)
    : list string :=
  match keys with
  | [] => ans
  | tn :: keys' =>
      forEach_push ex keys'
        (if negb (truthy (default VUndefined (ex !! tn)))
         then (ans ++ [tn])%list else ans)
  end.

Definition dummyBasicTypesExcept (arguments : list string) : list string :=
  forEach_push (exclude_lookup arguments) (sort DUMMY_BASIC_TYPES_keys) [].

End Test.

(** ** Facts about the store *)

Example sample_client_constructed :
  MoodleWSClient sampleEnv [VStr sample_url; VStr sample_token] []
  = Ok sample_client sample_client_heap.
Proof. vm_compute. reflexivity. Qed.


Section Store.
Implicit Types (h : Heap) (l : loc) (k : string) (x v : Value).

Lemma write_length l k x h : length (write l k x h) = length h.
Proof.
  unfold write. destruct (h !! l); [apply length_insert | reflexivity].
Qed.

Lemma assign_ordinary k x o :
  k ≠ "__proto__" ->
  assign k x o = {| cls := cls o; props := <[k := x]> (props o) |}.
Proof.
  intros Hk. unfold assign, runs_proto_setter.
  apply String.eqb_neq in Hk. by rewrite Hk.
Qed.

Lemma lookup_write_assign l k x h o :
  h !! l = Some o -> write l k x h !! l = Some (assign k x o).
Proof.
  intros Ho. unfold write. rewrite Ho.
  apply list_lookup_insert_eq. by eapply lookup_lt_Some.
Qed.

Lemma lookup_write_eq l k x h o :
  k ≠ "__proto__" ->
  h !! l = Some o ->
  write l k x h !! l = Some {| cls := cls o; props := <[k := x]> (props o) |}.
Proof.
  intros Hk Ho. by rewrite (lookup_write_assign _ _ _ _ _ Ho), assign_ordinary.
Qed.

Lemma lookup_write_ne l l' k x h : l ≠ l' -> write l k x h !! l' = h !! l'.
Proof.
  intros Hne. unfold write. destruct (h !! l); [|reflexivity].
  by apply list_lookup_insert_ne.
Qed.

Lemma member_write_same l k x h :
  k ≠ "__proto__" ->
  is_Some (h !! l) -> member (write l k x h) (VRef l) k = x.
Proof.
  intros Hk [o Ho]. unfold member. rewrite (lookup_write_eq _ _ _ _ _ Hk Ho). simpl.
  by rewrite lookup_insert_eq.
Qed.

(** An object or a function assigned under any key, [__proto__] included,
    is read back under that key: as an own property, or as the prototype. *)
Lemma member_write_object l k x h :
  isObject x = true ->
  is_Some (h !! l) -> member (write l k x h) (VRef l) k = x.
Proof.
  intros Hx [o Ho]. unfold member.
  rewrite (lookup_write_assign _ _ _ _ _ Ho).
  unfold assign, runs_proto_setter.
  destruct (String.eqb_spec k "__proto__") as [->|Hne]; cbn [andb].
  - destruct (props o !! "__proto__") as [y|] eqn:Hy; cbn [andb].
    + cbn [props]. by rewrite lookup_insert_eq.
    + destruct (has_proto_accessor (cls o)).
      * destruct x; try discriminate; cbn [props cls]; by rewrite Hy.
      * cbn [props]. by rewrite lookup_insert_eq.
  - cbn [props]. by rewrite lookup_insert_eq.
Qed.

Lemma member_write_key l k k' x h :
  k ≠ "__proto__" ->
  k ≠ k' -> member (write l k x h) (VRef l) k' = member h (VRef l) k'.
Proof.
  intros Hk Hne. unfold member. destruct (h !! l) as [o|] eqn:Ho.
  - rewrite (lookup_write_eq _ _ _ _ _ Hk Ho). simpl. by rewrite lookup_insert_ne.
  - unfold write. rewrite Ho. simpl. by rewrite Ho.
Qed.

Lemma member_write_loc l l' k k' x h :
  l ≠ l' -> member (write l k x h) (VRef l') k' = member h (VRef l') k'.
Proof.
  intros Hne. unfold member. by rewrite lookup_write_ne.
Qed.

Lemma cls_write l l' k x h :
  k ≠ "__proto__" ->
  (cls <$> write l k x h !! l') = (cls <$> h !! l').
Proof.
  intros Hk. destruct (decide (l = l')) as [<-|Hne].
  - destruct (h !! l) as [o|] eqn:Ho.
    + by rewrite (lookup_write_eq _ _ _ _ _ Hk Ho).
    + unfold write. rewrite Ho. simpl. by rewrite Ho.
  - by rewrite lookup_write_ne.
Qed.

Lemma is_Some_write l l' k x h :
  is_Some (write l k x h !! l') <-> is_Some (h !! l').
Proof. by rewrite !lookup_lt_is_Some, write_length. Qed.

Lemma isPlainObject_is_Some h v :
  isPlainObject h v = true <-> exists l, v = VRef l /\ is_Some (h !! l).
Proof.
  split.
  - destruct v as [| | | | |l| |]; try discriminate. simpl.
    destruct (h !! l) eqn:Ho; [|discriminate]. intros _. exists l. by rewrite Ho.
  - intros (l & -> & [o Ho]). simpl. by rewrite Ho.
Qed.

Lemma isPlainObject_write l k x h v :
  isPlainObject (write l k x h) v = isPlainObject h v.
Proof.
  destruct v as [| | | | |l'| |]; try reflexivity. simpl.
  pose proof (is_Some_write l l' k x h) as [H1 H2].
  destruct (write l k x h !! l') as [o1|], (h !! l') as [o2|]; try reflexivity.
  - by destruct H1 as [? ?].
  - by destruct H2 as [? ?].
Qed.

End Store.

(** ** Facts about the checks *)

Section Checks.
Context (E : Env).
Implicit Types (h : Heap) (v : Value).

Lemma moodleBaseUrl_checks h v :
  first_rejection E h [presence; url; format pattern_trailingSlash] v = None
  <-> baseUrl_accepted E v = true.
Proof.
  destruct v as [| | |[q|]|s|l| |]; simpl; try (split; congruence).
  - destruct (all_chars is_space s), (url_https E s), (pattern_trailingSlash s);
      simpl; split; congruence.
  - destruct (h !! l) as [o|]; [destruct (cls o); try destruct (bool_decide _)|];
      split; congruence.
Qed.

Lemma token_checks h v :
  first_rejection E h [presence; format pattern_token] v = None
  <-> token_accepted v = true.
Proof.
  destruct v as [| | |[q|]|s|l| |]; simpl; try (split; congruence).
  - destruct (all_chars is_space s), (pattern_token s); simpl; split; congruence.
  - destruct (h !! l) as [o|]; [destruct (cls o); try destruct (bool_decide _)|];
      split; congruence.
Qed.

Lemma dataFormat_checks h v :
  first_rejection E h
    (presence :: paramToAttrConstraints (vpCons_wsDataFormat E)) v = None
  <-> dataFormat_accepted v = true.
Proof.
  destruct v as [| | |[q|]|s|l| |]; simpl; try (split; congruence).
  - destruct (all_chars is_space s), (pattern_wsDataFormat s); simpl; split; congruence.
  - destruct (h !! l) as [o|]; [destruct (cls o); try destruct (bool_decide _)|];
      split; congruence.
Qed.

Lemma timeout_checks h (n : Number) :
  first_rejection E h
    (presence :: paramToAttrConstraints (vpCons_timeoutMS E)) (VNum n) = None
  <-> timeout_accepted (VNum n) = true.
Proof.
  destruct n as [q|]; cbn -[isInteger Qle_bool]; [|split; congruence].
  destruct (isInteger (Fin q)), (Qle_bool q 0); simpl; split; congruence.
Qed.

Lemma timeout_value_number h v : exists n, timeout_value E h v = VNum n.
Proof. unfold timeout_value. destruct (negb (isEmpty h v)); eauto. Qed.

End Checks.

(** ** Running the constructor *)

Ltac run :=
  unfold mbind, M_bind, bind, mret, M_ret, ret, throw, get, set, read_heap, alloc.

Section Construction.
Context (E : Env).
Implicit Types (h : Heap) (l : loc) (v : Value).

Lemma options_coerce_ref l h :
  options_coerce E (VRef l) h = Ok (VRef l) (options_after E l h).
Proof.
  unfold options_coerce, options_after, after_dataFormat, after_accept,
    dataFormat_value, timeout_value.
  cbn [isObject negb]. run. cbn [isDefined].
  set (h1 := write l "acceptUntrustedTLSCert" _ h).
  destruct (negb (isEmpty h1 (member h1 (VRef l) "dataFormat")));
    cbn beta iota;
    match goal with |- context [write l "dataFormat" ?x h1] =>
      set (h2 := write l "dataFormat" x h1) end;
    destruct (negb (isEmpty h2 (member h2 (VRef l) "timeout")));
    reflexivity.
Qed.

Lemma options_coerce_other v h :
  isObject v = false -> options_coerce E v h = Ok v h.
Proof. intros Hv. unfold options_coerce. by rewrite Hv. Qed.

Lemma apply_default_none h (c : Constraints) v :
  defaultWhenUndefined c = None -> defaultWhenEmpty c = None ->
  apply_default h c v = v.
Proof. intros H1 H2. unfold apply_default. rewrite H1, H2. by destruct v. Qed.

Lemma apply_default_undefined h (c : Constraints) v d :
  defaultWhenUndefined c = Some d -> defaultWhenEmpty c = None ->
  apply_default h c v = or_default d v.
Proof. intros H1 H2. unfold apply_default. rewrite H1, H2. by destruct v. Qed.

Lemma arg_moodleBaseUrl (u t o : Value) :
  arg (<["options" := o]> (<["token" := t]> (<["moodleBaseUrl" := u]> ∅)))
    "moodleBaseUrl" = u.
Proof.
  unfold arg. rewrite !lookup_insert_ne by done. by rewrite lookup_insert_eq.
Qed.

Lemma arg_token (u t o : Value) :
  arg (<["options" := o]> (<["token" := t]> (<["moodleBaseUrl" := u]> ∅)))
    "token" = t.
Proof.
  unfold arg. rewrite lookup_insert_ne by done. by rewrite lookup_insert_eq.
Qed.

Lemma arg_options (u t o : Value) :
  arg (<["options" := o]> (<["token" := t]> (<["moodleBaseUrl" := u]> ∅)))
    "options" = o.
Proof. unfold arg. by rewrite lookup_insert_eq. Qed.

(** The constructor, step by step: the two allocations, the coercion of
    [options], the checks, and the three assignments to [this]. *)
Lemma MoodleWSClient_run args h :
  MoodleWSClient E args h =
    let this := length h in
    let dflt := VRef (S (length h)) in
    let u := moodleBaseUrl_coerce (hd VUndefined args) in
    let t := hd VUndefined (tl args) in
    let o := or_default dflt (hd VUndefined (tl (tl args))) in
    match options_coerce E o (constructor_heap h) with
    | Ok o' h2 =>
        match first_rejection E h2 [presence; url; format pattern_trailingSlash] u with
        | Some (k, r, x) =>
            Throw (ValidationError {| parameterName := "moodleBaseUrl"; attribute := k;
                                      reason := r; offendingValue := x |}) h2
        | None =>
        match first_rejection E h2 [presence; format pattern_token] t with
        | Some (k, r, x) =>
            Throw (ValidationError {| parameterName := "token"; attribute := k;
                                      reason := r; offendingValue := x |}) h2
        | None =>
        match first_rejection E h2 (options_validators E) o' with
        | Some (k, r, x) =>
            Throw (ValidationError {| parameterName := "options"; attribute := k;
                                      reason := r; offendingValue := x |}) h2
        | None =>
            Ok (VRef this) (constructed this u t o' h2)
        end end end
    | Throw e h2 => Throw e h2
    end.
Proof.
  unfold MoodleWSClient, constructor_heap, assert. run.
  rewrite length_app, Nat.add_1_r.
  cbn [normalise constructor_constraints coerce name pure hd tl length].
  unfold normalise_one, pure. cbn [coerce name]. run.
  rewrite (apply_default_none _ _ (hd VUndefined args)) by reflexivity.
  rewrite (apply_default_none _ _ (hd VUndefined (tl args))) by reflexivity.
  rewrite (apply_default_undefined _ _ (hd VUndefined (tl (tl args)))
             (VRef (S (length h)))) by reflexivity.
  set (u := moodleBaseUrl_coerce _).
  set (t := hd VUndefined (tl args)).
  set (o := or_default _ _).
  fold instance_object.
  destruct (options_coerce E o _) as [o' h2|e h2]; [|reflexivity].
  cbn [first_failure constructor_constraints validators name nth].
  fold (options_validators E).
  rewrite arg_moodleBaseUrl, arg_token, arg_options.
  destruct (first_rejection E h2 [presence; url; format pattern_trailingSlash] u)
    as [[[k r] x]|]; [reflexivity|].
  destruct (first_rejection E h2 [presence; format pattern_token] t)
    as [[[k r] x]|]; [reflexivity|].
  match goal with |- context [first_rejection E h2 ?cs o'] =>
    destruct (first_rejection E h2 cs o') as [[[k r] x]|] end; reflexivity.
Qed.

Lemma options_coerce_total v h :
  exists h2, options_coerce E v h = Ok v h2 /\ length h2 = length h
             /\ h2 = match v with VRef l => options_after E l h | _ => h end.
Proof.
  destruct v as [| | | | |l|m|f th a1 a2];
    try (exists h; repeat split; reflexivity).
  exists (options_after E l h). rewrite options_coerce_ref. repeat split.
  unfold options_after, after_dataFormat, after_accept.
  by rewrite !write_length.
Qed.

(** The dictionary check of [options], key by key. *)
Lemma options_checks h o :
  first_rejection E h (options_validators E) o =
    if negb (isDefined o) then None
    else if negb (isPlainObject h o) then Some (None, "dictionary", o)
    else
      match first_rejection E h [presence; hasTypeof "boolean"]
              (member h o "acceptUntrustedTLSCert") with
      | Some (_, r, x) => Some (Some "acceptUntrustedTLSCert", r, x)
      | None =>
      match first_rejection E h
              (presence :: paramToAttrConstraints (vpCons_wsDataFormat E))
              (member h o "dataFormat") with
      | Some (_, r, x) => Some (Some "dataFormat", r, x)
      | None =>
      match first_rejection E h
              (presence :: paramToAttrConstraints (vpCons_timeoutMS E))
              (member h o "timeout") with
      | Some (_, r, x) => Some (Some "timeout", r, x)
      | None => None
      end end end.
Proof.
  unfold options_validators.
  cbn [first_rejection rejects].
  destruct (negb (isDefined o)); [reflexivity|].
  destruct (negb (isPlainObject h o)); [reflexivity|].
  cbn [paramToAttrConstraints vpCons_wsDataFormat vpCons_timeoutMS validators
       first_rejection].
  repeat (try reflexivity;
    match goal with
    | |- context [rejects E h ?c ?x] =>
        destruct (rejects E h c x) as [[[? ?] ?]|]
    | |- context [if ?b then _ else _] => destruct b
    end).
Qed.

(** Reading the instance and the other objects once the constructor has
    made its three assignments. *)
Lemma constructed_this this u t o h :
  is_Some (h !! this) ->
  member (constructed this u t o h) (VRef this) "_moodleUrl" = u
  /\ member (constructed this u t o h) (VRef this) "_token" = t
  /\ member (constructed this u t o h) (VRef this) "_options" = o.
Proof.
  intros Hs. unfold constructed.
  assert (H1 : is_Some (write this "_moodleUrl" u h !! this)).
  { apply lookup_lt_is_Some. rewrite write_length. by apply lookup_lt_is_Some. }
  assert (H2 : is_Some (write this "_token" t (write this "_moodleUrl" u h) !! this)).
  { apply lookup_lt_is_Some. rewrite write_length. by apply lookup_lt_is_Some. }
  repeat split.
  - rewrite !member_write_key by done. by apply member_write_same.
  - rewrite member_write_key by done. by apply member_write_same.
  - by apply member_write_same.
Qed.

Lemma constructed_other this u t o h l :
  l ≠ this -> constructed this u t o h !! l = h !! l.
Proof.
  intros Hne. unfold constructed. by rewrite !lookup_write_ne.
Qed.

Lemma constructed_member this u t o h l k :
  l ≠ this ->
  member (constructed this u t o h) (VRef l) k = member h (VRef l) k.
Proof.
  intros Hne. unfold member. by rewrite constructed_other.
Qed.

Lemma constructed_member_key this u t o h l k :
  k ≠ "_moodleUrl" -> k ≠ "_token" -> k ≠ "_options" ->
  member (constructed this u t o h) (VRef l) k = member h (VRef l) k.
Proof.
  intros H1 H2 H3.
  destruct (decide (l = this)) as [->|Hne]; [|by apply constructed_member].
  unfold constructed. by rewrite !member_write_key by (done || congruence).
Qed.

(** The object at [l] after the coercion of [options]: its three keys. *)
Lemma after_accept_is_Some l l' h :
  is_Some (h !! l') -> is_Some (after_accept E l h !! l').
Proof.
  intros Hs. apply lookup_lt_is_Some. unfold after_accept.
  rewrite write_length. by apply lookup_lt_is_Some.
Qed.

Lemma after_dataFormat_is_Some l l' h :
  is_Some (h !! l') -> is_Some (after_dataFormat E l h !! l').
Proof.
  intros Hs. apply lookup_lt_is_Some. unfold after_dataFormat, after_accept.
  rewrite !write_length. by apply lookup_lt_is_Some.
Qed.

Lemma options_after_accept l h :
  is_Some (h !! l) ->
  member (options_after E l h) (VRef l) "acceptUntrustedTLSCert"
  = accept_value E (member h (VRef l) "acceptUntrustedTLSCert").
Proof.
  intros Hs. unfold options_after, after_dataFormat. cbn zeta.
  rewrite !member_write_key by done. by apply member_write_same.
Qed.

Lemma options_after_dataFormat l h :
  is_Some (h !! l) ->
  member (options_after E l h) (VRef l) "dataFormat"
  = dataFormat_value E (after_accept E l h) (member h (VRef l) "dataFormat").
Proof.
  intros Hs. unfold options_after. cbn zeta.
  rewrite member_write_key by done. unfold after_dataFormat. cbn zeta.
  rewrite member_write_same by (done || by apply after_accept_is_Some).
  unfold after_accept at 2. by rewrite member_write_key.
Qed.

Lemma options_after_timeout l h :
  is_Some (h !! l) ->
  member (options_after E l h) (VRef l) "timeout"
  = timeout_value E (after_dataFormat E l h) (member h (VRef l) "timeout").
Proof.
  intros Hs. unfold options_after. cbn zeta.
  rewrite member_write_same by (done || by apply after_dataFormat_is_Some).
  unfold after_dataFormat at 2. cbn zeta. rewrite member_write_key by done.
  unfold after_accept. by rewrite member_write_key.
Qed.

Lemma options_after_lookup l h o :
  h !! l = Some o ->
  options_after E l h !! l =
    Some {| cls := cls o;
            props :=
              <["timeout" := member (options_after E l h) (VRef l) "timeout"]>
                (<["dataFormat" := member (options_after E l h) (VRef l) "dataFormat"]>
                   (<["acceptUntrustedTLSCert" :=
                        member (options_after E l h) (VRef l) "acceptUntrustedTLSCert"]>
                      (props o))) |}.
Proof.
  intros Ho.
  rewrite options_after_accept, options_after_dataFormat, options_after_timeout
    by by rewrite Ho.
  unfold options_after, after_dataFormat, after_accept. cbn zeta.
  erewrite lookup_write_eq;
    [|done|erewrite lookup_write_eq; [|done|by apply lookup_write_eq]; done].
  cbn [cls props].
  rewrite !member_write_key by done. reflexivity.
Qed.

Lemma options_after_other l l' h :
  l ≠ l' -> options_after E l h !! l' = h !! l'.
Proof.
  intros Hne. unfold options_after, after_dataFormat, after_accept. cbn zeta.
  by rewrite !lookup_write_ne.
Qed.

Lemma options_after_plain l h v :
  isPlainObject (options_after E l h) v = isPlainObject h v.
Proof.
  unfold options_after, after_dataFormat, after_accept. cbn zeta.
  by rewrite !isPlainObject_write.
Qed.

(** The store of the constructor holds the caller's objects, the instance
    and the default options. *)
Lemma constructor_heap_caller h l :
  (l < length h)%nat -> constructor_heap h !! l = h !! l.
Proof.
  intros Hl. unfold constructor_heap.
  rewrite lookup_app_l by (rewrite length_app; simpl; lia).
  by rewrite lookup_app_l.
Qed.

Lemma constructor_heap_this h :
  constructor_heap h !! length h = Some instance_object.
Proof.
  unfold constructor_heap. rewrite <- app_assoc. by apply list_lookup_middle.
Qed.

Lemma constructor_heap_default h :
  constructor_heap h !! S (length h) = Some empty_object.
Proof.
  unfold constructor_heap. apply list_lookup_middle.
  rewrite length_app. simpl. lia.
Qed.

Lemma constructor_heap_length h :
  length (constructor_heap h) = S (S (length h)).
Proof. unfold constructor_heap. rewrite !length_app. simpl. lia. Qed.

(** When the constructor returns, and what it returns. *)
Lemma MoodleWSClient_inv args h c h' :
  MoodleWSClient E args h = Ok c h' ->
  let u := moodleBaseUrl_coerce (hd VUndefined args) in
  let t := hd VUndefined (tl args) in
  let o := or_default (VRef (S (length h))) (hd VUndefined (tl (tl args))) in
  exists h2,
    options_coerce E o (constructor_heap h) = Ok o h2
    /\ baseUrl_accepted E u = true
    /\ token_accepted t = true
    /\ first_rejection E h2 (options_validators E) o = None
    /\ c = VRef (length h)
    /\ h' = constructed (length h) u t o h2.
Proof.
  rewrite MoodleWSClient_run. cbn zeta.
  set (u := moodleBaseUrl_coerce _). set (t := hd VUndefined (tl args)).
  set (o := or_default _ _).
  destruct (options_coerce_total o (constructor_heap h)) as (h2 & -> & _ & _).
  destruct (first_rejection E h2 [presence; url; format pattern_trailingSlash] u)
    as [[[? ?] ?]|] eqn:Hu; [discriminate|].
  destruct (first_rejection E h2 [presence; format pattern_token] t)
    as [[[? ?] ?]|] eqn:Ht; [discriminate|].
  destruct (first_rejection E h2 (options_validators E) o)
    as [[[? ?] ?]|] eqn:Ho; [discriminate|].
  intros [= <- <-]. exists h2. repeat split; try done.
  - by apply (moodleBaseUrl_checks E h2).
  - by apply (token_checks E h2).
Qed.

Lemma MoodleWSClient_ok args h h2 :
  let u := moodleBaseUrl_coerce (hd VUndefined args) in
  let t := hd VUndefined (tl args) in
  let o := or_default (VRef (S (length h))) (hd VUndefined (tl (tl args))) in
  options_coerce E o (constructor_heap h) = Ok o h2 ->
  baseUrl_accepted E u = true ->
  token_accepted t = true ->
  first_rejection E h2 (options_validators E) o = None ->
  MoodleWSClient E args h = Ok (VRef (length h)) (constructed (length h) u t o h2).
Proof.
  intros u t o Hc Hu Ht Ho. rewrite MoodleWSClient_run. cbn zeta.
  fold u t o. rewrite Hc.
  apply (moodleBaseUrl_checks E h2) in Hu. rewrite Hu.
  apply (token_checks E h2) in Ht. rewrite Ht.
  by rewrite Ho.
Qed.

(** The default options pass the checks. *)
Lemma member_default_options h k :
  member (constructor_heap h) (VRef (S (length h))) k = VUndefined.
Proof.
  unfold member. rewrite constructor_heap_default. simpl.
  by rewrite lookup_empty.
Qed.

Lemma options_accepted l h :
  isPlainObject h (VRef l) = true ->
  dataFormat_accepted
    (dataFormat_value E (after_accept E l h) (member h (VRef l) "dataFormat")) = true ->
  timeout_accepted
    (timeout_value E (after_dataFormat E l h) (member h (VRef l) "timeout")) = true ->
  first_rejection E (options_after E l h) (options_validators E) (VRef l) = None.
Proof.
  intros Hp Hd Ht.
  assert (Hs : is_Some (h !! l)).
  { simpl in Hp. destruct (h !! l); [by eexists | discriminate]. }
  rewrite options_checks. cbn [isDefined negb].
  rewrite options_after_plain, Hp. cbn [negb].
  rewrite options_after_accept, options_after_dataFormat, options_after_timeout
    by done.
  replace (first_rejection E (options_after E l h) [presence; hasTypeof "boolean"]
             (accept_value E (member h (VRef l) "acceptUntrustedTLSCert")))
    with (@None Rejection)
    by (unfold accept_value; by destruct (isDefined _)).
  apply (dataFormat_checks E (options_after E l h)) in Hd. rewrite Hd.
  destruct (timeout_value_number E (after_dataFormat E l h)
              (member h (VRef l) "timeout")) as [n Hn].
  rewrite Hn in Ht |- *.
  apply (timeout_checks E (options_after E l h)) in Ht. by rewrite Ht.
Qed.

Lemma MoodleWSClient_default u t h :
  baseUrl_accepted E (moodleBaseUrl_coerce u) = true ->
  token_accepted t = true ->
  MoodleWSClient E [u; t] h =
    Ok (VRef (length h))
       (constructed (length h) (moodleBaseUrl_coerce u) t (VRef (S (length h)))
          (options_after E (S (length h)) (constructor_heap h))).
Proof.
  intros Hu Ht.
  apply (MoodleWSClient_ok [u; t] h); try done.
  - apply options_coerce_ref.
  - cbn [hd tl or_default]. apply options_accepted.
    + simpl. by rewrite constructor_heap_default.
    + by rewrite member_default_options.
    + by rewrite member_default_options.
Qed.

(** A returned client whose options are the object at [l]. *)
Lemma MoodleWSClient_options args h c h' l :
  MoodleWSClient E args h = Ok c h' ->
  or_default (VRef (S (length h))) (hd VUndefined (tl (tl args))) = VRef l ->
  c = VRef (length h)
  /\ h' = constructed (length h) (moodleBaseUrl_coerce (hd VUndefined args))
            (hd VUndefined (tl args)) (VRef l)
            (options_after E l (constructor_heap h))
  /\ isPlainObject (constructor_heap h) (VRef l) = true
  /\ is_Some (constructor_heap h !! l)
  /\ member h' c "_options" = VRef l
  /\ (forall k, k ≠ "_moodleUrl" -> k ≠ "_token" -> k ≠ "_options" ->
                member h' (VRef l) k
                = member (options_after E l (constructor_heap h)) (VRef l) k)
  /\ dataFormat_accepted
       (member (options_after E l (constructor_heap h)) (VRef l) "dataFormat") = true
  /\ timeout_accepted
       (member (options_after E l (constructor_heap h)) (VRef l) "timeout") = true.
Proof.
  intros Hok Hl.
  apply MoodleWSClient_inv in Hok as (h2 & Hc & _ & _ & Hchk & -> & ->).
  rewrite Hl in Hc, Hchk |- *. rewrite options_coerce_ref in Hc.
  injection Hc as <-.
  rewrite options_checks in Hchk. cbn [isDefined negb] in Hchk.
  rewrite options_after_plain in Hchk.
  destruct (isPlainObject (constructor_heap h) (VRef l)) eqn:Hp;
    [|discriminate]. cbn [negb] in Hchk.
  destruct (first_rejection _ _ [presence; hasTypeof "boolean"] _)
    as [[[? ?] ?]|]; [discriminate|].
  destruct (first_rejection _ _ (presence :: paramToAttrConstraints (vpCons_wsDataFormat E)) _)
    as [[[? ?] ?]|] eqn:Hd; [discriminate|].
  destruct (first_rejection _ _ (presence :: paramToAttrConstraints (vpCons_timeoutMS E)) _)
    as [[[? ?] ?]|] eqn:Ht; [discriminate|].
  apply dataFormat_checks in Hd.
  assert (Hs : is_Some (constructor_heap h !! l)).
  { simpl in Hp. destruct (constructor_heap h !! l); [by eexists|discriminate]. }
  rewrite options_after_timeout in Ht |- * by done.
  destruct (timeout_value_number E (after_dataFormat E l (constructor_heap h))
              (member (constructor_heap h) (VRef l) "timeout")) as [n Hn].
  rewrite Hn in Ht |- *. apply timeout_checks in Ht.
  repeat split; try done.
  - apply constructed_this. apply lookup_lt_is_Some.
    unfold options_after, after_dataFormat, after_accept. cbn zeta.
    rewrite !write_length, constructor_heap_length. lia.
  - intros k. by apply constructed_member_key.
Qed.

(** A key the caller left out is still absent when the coercion starts. *)
Lemma member_constructor_heap h l k :
  inherited Instance k = VUndefined ->
  member h (VRef l) k = VUndefined ->
  member (constructor_heap h) (VRef l) k = VUndefined.
Proof.
  intros Hi Hm.
  destruct (decide (l < length h)%nat) as [Hlt|Hge].
  - unfold member in *. by rewrite constructor_heap_caller.
  - destruct (decide (l = length h)) as [->|Hne].
    { unfold member. by rewrite constructor_heap_this. }
    destruct (decide (l = S (length h))) as [->|Hne'].
    { apply member_default_options. }
    unfold member. rewrite lookup_ge_None_2; [done|].
    rewrite constructor_heap_length. lia.
Qed.

(** Reading a value does not depend on objects it does not refer to. *)
Lemma isEmpty_same h h' v :
  (forall l, v = VRef l -> h' !! l = h !! l) -> isEmpty h' v = isEmpty h v.
Proof.
  intros Hs. destruct v as [| | | | |l| |]; try reflexivity.
  simpl. by rewrite (Hs l).
Qed.

Lemma timeoutMS_coerce_same h h' v :
  (forall l, v = VRef l -> h' !! l = h !! l) ->
  timeoutMS_coerce E h' v = timeoutMS_coerce E h v.
Proof.
  intros Hs. destruct v as [| | | | |l| |]; try reflexivity.
  unfold timeoutMS_coerce, isDuration, asMilliseconds, duration_input, enumerate.
  by rewrite (Hs l).
Qed.

Lemma after_dataFormat_other l l' h :
  l ≠ l' -> after_dataFormat E l h !! l' = h !! l'.
Proof.
  intros Hne. unfold after_dataFormat, after_accept. cbn zeta.
  by rewrite !lookup_write_ne.
Qed.

Lemma dataFormat_value_primitive h d :
  isObject d = false -> dataFormat_value E h d = dataFormat_value E [] d.
Proof. by destruct d. Qed.

End Construction.

(** ** The constructor: base URL and token *)

(** C6: whenever the constructor returns a client for a base URL [s], the
    stored base URL (what [moodleUrl()] returns) is [s] followed by a slash
    when [s] does not end in one, and [s] itself when it does; and a base URL
    whose stored form the URL checks accept is constructed, with any accepted
    token. *)
Theorem base_url_trailing_slash (E : Env) (h : Heap) (s : string) :
  let stored := if ends_with_slash s then s else s +:+ "/" in
  (forall others c h',
      MoodleWSClient E (VStr s :: others) h = Ok c h' ->
      moodleUrl c h' = Ok (VStr stored) h')
  /\ (forall t,
      baseUrl_accepted E (VStr stored) = true ->
      token_accepted t = true ->
      exists h',
        MoodleWSClient E [VStr s; t] h = Ok (VRef (length h)) h'
        /\ moodleUrl (VRef (length h)) h' = Ok (VStr stored) h').
Proof.
  intros stored.
  assert (Hco : moodleBaseUrl_coerce (VStr s) = VStr stored).
  { subst stored. simpl. by destruct (ends_with_slash s). }
  assert (Hread : forall t o h2,
             length h2 = S (S (length h)) ->
             moodleUrl (VRef (length h))
               (constructed (length h) (VStr stored) t o h2)
             = Ok (VStr stored) (constructed (length h) (VStr stored) t o h2)).
  { intros t o h2 Hlen. unfold moodleUrl, get. cbn [isDefined].
    f_equal. apply constructed_this. apply lookup_lt_is_Some. lia. }
  split.
  - intros others c h' Hok.
    apply MoodleWSClient_inv in Hok as (h2 & Hc & _ & _ & _ & -> & ->).
    cbn [hd] in *. rewrite Hco.
    destruct (options_coerce_total E
                (or_default (VRef (S (length h))) (hd VUndefined (tl others)))
                (constructor_heap h)) as (h3 & Hc' & Hlen & _).
    cbn [tl] in Hc. rewrite Hc' in Hc. injection Hc as <-.
    apply Hread. by rewrite Hlen, constructor_heap_length.
  - intros t Hu Ht. eexists. split.
    + apply MoodleWSClient_default; [by rewrite Hco | done].
    + rewrite Hco. apply Hread.
      unfold options_after, after_dataFormat, after_accept. cbn zeta.
      by rewrite !write_length, constructor_heap_length.
Qed.

Lemma base_url_trailing_slash_witness :
  exists h',
    MoodleWSClient sampleEnv [VStr sample_url; VStr sample_token] []
    = Ok (VRef 0) h'
    /\ moodleUrl (VRef 0) h' = Ok (VStr "https://localhost/") h'.
Proof.
  apply (proj2 (base_url_trailing_slash sampleEnv [] sample_url)); reflexivity.
Defined.

(** C3 (the source departs from the claim): the pattern of the token is
    [[a-z0-9]{32}], so a string of 32 lower-case letters that is not
    hexadecimal is accepted and stored;  the message of the same constraint
    and the documentation of the type ask for a hexadecimal string. *)
Theorem token_of_letters_accepted (E : Env) (h : Heap) (u : Value) :
  baseUrl_accepted E (moodleBaseUrl_coerce u) = true ->
  is_moodle_token letters_token = false
  /\ exists h',
       MoodleWSClient E [u; VStr letters_token] h = Ok (VRef (length h)) h'
       /\ member h' (VRef (length h)) "_token" = VStr letters_token.
Proof.
  intros Hu. split; [reflexivity|].
  eexists. split.
  - by apply MoodleWSClient_default.
  - apply constructed_this. apply lookup_lt_is_Some.
    unfold options_after, after_dataFormat, after_accept. cbn zeta.
    rewrite !write_length, constructor_heap_length. lia.
Qed.

Lemma token_of_letters_accepted_witness :
  is_moodle_token letters_token = false
  /\ exists h',
       MoodleWSClient sampleEnv [VStr sample_url; VStr letters_token] []
       = Ok (VRef 0) h'
       /\ member h' (VRef 0) "_token" = VStr letters_token.
Proof.
  apply (token_of_letters_accepted sampleEnv [] (VStr sample_url)).
  reflexivity.
Defined.

(** ** The constructor: options *)

(** C7: in every construction that returns a client, an option the caller
    left out (by passing no options object, or an object without the key) is
    stored with its default: [acceptUntrustedTLSCert] false, [dataFormat]
    json, [timeout] 5000. *)
Theorem options_defaults (E : Env) (args : list Value) (h : Heap)
    (c : Value) (h' : Heap) :
  MoodleWSClient E args h = Ok c h' ->
  let given := hd VUndefined (tl (tl args)) in
  let omitted k :=
    given = VUndefined
    \/ exists l, given = VRef l /\ member h (VRef l) k = VUndefined in
  let stored := member h' c "_options" in
  (omitted "acceptUntrustedTLSCert" ->
     member h' stored "acceptUntrustedTLSCert" = VBool false)
  /\ (omitted "dataFormat" -> member h' stored "dataFormat" = VStr "json")
  /\ (omitted "timeout" -> member h' stored "timeout" = int 5000).
Proof.
  intros Hok given omitted stored.
  assert (Hcase : forall k, inherited Instance k = VUndefined -> omitted k ->
            exists l, or_default (VRef (S (length h))) given = VRef l
                      /\ member (constructor_heap h) (VRef l) k = VUndefined).
  { intros k Hi [Hg|(l & Hg & Hm)]; rewrite Hg.
    - exists (S (length h)). split; [reflexivity|].
      apply member_default_options.
    - exists l. split; [reflexivity|].
      by apply member_constructor_heap. }
  assert (Hkey : forall k, inherited Instance k = VUndefined ->
            k ≠ "_moodleUrl" -> k ≠ "_token" -> k ≠ "_options" -> omitted k ->
            exists l, stored = VRef l
              /\ is_Some (constructor_heap h !! l)
              /\ member (constructor_heap h) (VRef l) k = VUndefined
              /\ member h' (VRef l) k
                  = member (options_after E l (constructor_heap h)) (VRef l) k).
  { intros k Hi H1 H2 H3 Hk. destruct (Hcase k Hi Hk) as (l & Hl & Hm).
    destruct (MoodleWSClient_options E args h c h' l Hok Hl)
      as (_ & _ & _ & Hs & Hst & Hrd & _).
    exists l. repeat split; try done. by apply Hrd. }
  repeat split; intros Hk;
    match type of Hk with
    | omitted ?k =>
        destruct (Hkey k eq_refl ltac:(done) ltac:(done) ltac:(done) Hk)
          as (l & -> & Hs & Hm & Hrd)
    end;
    rewrite Hrd.
  - rewrite options_after_accept, Hm by done. reflexivity.
  - rewrite options_after_dataFormat, Hm by done. reflexivity.
  - rewrite options_after_timeout, Hm by done. reflexivity.
Qed.

Lemma options_defaults_witness :
  member sample_client_heap (member sample_client_heap sample_client "_options")
    "acceptUntrustedTLSCert" = VBool false
  /\ member sample_client_heap (member sample_client_heap sample_client "_options")
       "dataFormat" = VStr "json"
  /\ member sample_client_heap (member sample_client_heap sample_client "_options")
       "timeout" = int 5000.
Proof.
  destruct (options_defaults sampleEnv [VStr sample_url; VStr sample_token] []
              sample_client sample_client_heap) as (H1 & H2 & H3);
    [vm_compute; reflexivity|].
  refine (conj (H1 _) (conj (H2 _) (H3 _))); by left.
Defined.

(** C10: with an options object of the caller, a construction that returns
    stores a reference to that very object, and the object has been updated
    in place: the three option keys hold their defaulted or coerced values,
    its other keys and every other object of the caller are as before. *)
Theorem options_shared (E : Env) (args : list Value) (h : Heap)
    (c : Value) (h' : Heap) (l : loc) (o : Obj) :
  hd VUndefined (tl (tl args)) = VRef l ->
  h !! l = Some o ->
  MoodleWSClient E args h = Ok c h' ->
  member h' c "_options" = VRef l
  /\ (exists a d t,
        h' !! l = Some {| cls := cls o;
                          props := <["timeout" := t]>
                                     (<["dataFormat" := d]>
                                        (<["acceptUntrustedTLSCert" := a]> (props o))) |}
        /\ a = accept_value E (member h (VRef l) "acceptUntrustedTLSCert")
        /\ d = dataFormat_value E (after_accept E l (constructor_heap h))
                 (member h (VRef l) "dataFormat")
        /\ t = timeout_value E (after_dataFormat E l (constructor_heap h))
                 (member h (VRef l) "timeout"))
  /\ (forall l', l' ≠ l -> (l' < length h)%nat -> h' !! l' = h !! l').
Proof.
  intros Hg Ho Hok.
  assert (Hlt : (l < length h)%nat) by by eapply lookup_lt_Some.
  assert (Hch : constructor_heap h !! l = Some o)
    by by rewrite constructor_heap_caller.
  assert (Hm : forall k, member (constructor_heap h) (VRef l) k = member h (VRef l) k).
  { intros k. unfold member. by rewrite Hch, Ho. }
  destruct (MoodleWSClient_options E args h c h' l Hok)
    as (_ & -> & _ & _ & Hst & _ & _ & _); [by rewrite Hg|].
  split; [done|]. split.
  - eexists _, _, _. split; [|repeat split].
    + rewrite constructed_other by lia.
      rewrite (options_after_lookup E l _ o Hch).
      rewrite options_after_accept, options_after_dataFormat,
        options_after_timeout, !Hm by by rewrite Hch.
      reflexivity.
  - intros l' Hne' Hlt'.
    rewrite constructed_other by lia.
    rewrite options_after_other by done.
    by apply constructor_heap_caller.
Qed.

Lemma options_shared_witness :
  MoodleWSClient sampleEnv [VStr sample_url; VStr sample_token; VRef 0]
    [sample_options] = Ok (VRef 1) sample_shared_heap
  /\ member sample_shared_heap (VRef 1) "_options" = VRef 0
  /\ member sample_shared_heap (VRef 0) "verbose" = VBool true
  /\ member sample_shared_heap (VRef 0) "dataFormat" = VStr "json".
Proof.
  destruct (options_shared sampleEnv [VStr sample_url; VStr sample_token; VRef 0]
              [sample_options] (VRef 1) sample_shared_heap 0 sample_options)
    as (H1 & _ & _); [reflexivity | reflexivity | vm_compute; reflexivity |].
  split; [vm_compute; reflexivity|].
  split; [exact H1|]. split; vm_compute; reflexivity.
Defined.

(** ** The constructor: the timeout *)

Lemma positive_count_accepted (n : Z) :
  (0 < n)%Z -> timeout_accepted (VNum (Fin (inject_Z n))) = true.
Proof.
  intros Hn. unfold timeout_accepted, isInteger, Qle_bool. simpl.
  rewrite Z.mod_1_r, Z.mul_1_r. simpl.
  apply negb_true_iff, Z.leb_gt. lia.
Qed.

(** How the three kinds of descriptor resolve: a duration object to its
    length, a string or an object to the positive length [moment.duration]
    gives it, and anything else, a number included, through [c.toNumber]. *)
Lemma timeoutMS_coerce_duration (E : Env) (h : Heap) (v : Value) :
  isDuration h v = true -> timeoutMS_coerce E h v = asMilliseconds h v.
Proof. intros Hd. unfold timeoutMS_coerce. by rewrite Hd. Qed.

Lemma timeoutMS_coerce_parsed (E : Env) (h : Heap) (v : Value) :
  isDuration h v = false ->
  isObject v || isString v = true ->
  gt0 (moment_duration E (duration_input h v)) = true ->
  timeoutMS_coerce E h v = moment_duration E (duration_input h v).
Proof. intros Hd Ho Hg. unfold timeoutMS_coerce. by rewrite Hd, Ho, Hg. Qed.

Lemma timeoutMS_coerce_number (E : Env) (h : Heap) (n : Number) :
  timeoutMS_coerce E h (VNum n) = c_toNumber E (VNum n).
Proof. reflexivity. Qed.

Example duration_object_timeout :
  let o := MoodleWSClient sampleEnv [VStr sample_url; VStr sample_token; VRef 1]
             sample_duration_heap in
  o = Ok (VRef 2) (heap_of o)
  /\ member (heap_of o) (VRef 1) "timeout" = int 30000.
Proof. vm_compute. repeat split. Qed.

Example duration_fields_timeout :
  let o := MoodleWSClient sampleEnv [VStr sample_url; VStr sample_token; VRef 1]
             sample_fields_heap in
  o = Ok (VRef 2) (heap_of o)
  /\ member (heap_of o) (VRef 1) "timeout" = int 250.
Proof. vm_compute. repeat split. Qed.

(** ** Running [submit] *)

Section Submit.
Context (E : Env).
Implicit Types (h : Heap) (v this : Value).

(** The loop [for (param in d) q[param] = d[param]] on a literal [q]: every
    entry of [d] but one named [__proto__] is put over [q]. *)
Lemma for_in_assign_union (d q : gmap string Value) :
  q !! "__proto__" = None ->
  for_in_assign q d = delete "__proto__" d ∪ q.
Proof.
  intros Hq. unfold for_in_assign.
  enough (H : props (map_fold assign {| cls := Plain; props := q |} d)
              = delete "__proto__" d ∪ q
              /\ (d !! "__proto__" = None ->
                  cls (map_fold assign {| cls := Plain; props := q |} d) = Plain))
    by exact (proj1 H).
  apply (map_fold_weak_ind
           (fun r m => props r = delete "__proto__" m ∪ q
                       /\ (m !! "__proto__" = None -> cls r = Plain))).
  - split; [|done]. simpl. by rewrite delete_empty, (left_id_L ∅ (∪)).
  - intros i x m r Hi [Hp Hc]. unfold assign, runs_proto_setter.
    destruct (String.eqb_spec i "__proto__") as [->|Hne].
    + rewrite Hp, (Hc Hi).
      assert ((delete "__proto__" m ∪ q) !! "__proto__" = None) as ->.
      { apply lookup_union_None. split; [apply lookup_delete_eq|done]. }
      cbn [andb has_proto_accessor]. rewrite delete_insert_eq.
      split; [by destruct x|].
      rewrite lookup_insert_eq. discriminate.
    + cbn [andb cls props]. rewrite Hp, delete_insert_ne by done.
      rewrite insert_union_l. split; [done|].
      by rewrite lookup_insert_ne.
Qed.

Lemma query_lookup (d q : gmap string Value) k :
  (d ∪ q) !! k = match d !! k with Some x => Some x | None => q !! k end.
Proof.
  destruct (d !! k) as [x|] eqn:Hd.
  - rewrite lookup_union_l' by by rewrite Hd. done.
  - by apply lookup_union_r.
Qed.

(** [submit_reqOpts] changes the store only by the object of the literal
    default, and its result is read off the validated arguments. *)
Lemma submit_reqOpts_inv this arguments h r h' :
  submit_reqOpts E this arguments h = Ok r h' ->
  exists args,
    submit_args E arguments h = Ok args h'
    /\ h' = (h ++ [empty_object])%list
    /\ r = {| uri := member h' this "apiUrl";
              method := arg args "method";
              qs := delete "__proto__" (enumerate h' (arg args "wsParameters"))
                    ∪ fixed_query (member h' this "_token")
                        (arg args "wsFunctionName")
                        (member h' (member h' this "_options") "dataFormat");
              strictSSL :=
                negb (truthy (member h' (member h' this "_options")
                                "acceptUntrustedTLSCert"));
              timeout := member h' (member h' this "_options") "timeout" |}.
Proof.
  unfold submit_reqOpts. run.
  destruct (submit_args E arguments h) as [args h1|e h1] eqn:Ha; [|discriminate].
  assert (Hh : h1 = (h ++ [empty_object])%list).
  { revert Ha. unfold submit_args, assert. run.
    destruct (normalise _ _ _ _) as [bag h2|] eqn:Hn; [|discriminate].
    assert (h2 = (h ++ [empty_object])%list) as ->.
    { revert Hn. cbn [normalise submit_constraints]. unfold normalise_one. run.
      cbn [coerce extendObject vpCons_httpMethod vpCons_wsFunctionName pure].
      run. by intros [= _ <-]. }
    destruct (first_failure _ _ _ _); [discriminate|]. by intros [= _ <-]. }
  destruct (isDefined this); [|discriminate].
  destruct (isDefined (member h1 this "_options")); [|discriminate].
  intros [= <- <-]. exists args. repeat split; try done.
  by rewrite for_in_assign_union.
Qed.

(** [submit] evaluates to undefined whenever it returns. *)
Lemma submit_value this arguments h :
  match submit E this arguments h with
  | Ok v _ => v = VUndefined
  | Throw _ _ => True
  end.
Proof.
  unfold submit. run. by destruct (submit_reqOpts E this arguments h).
Qed.

(** [registerShortcut] evaluates to [this] whenever it returns. *)
Lemma registerShortcut_value this arguments h :
  match registerShortcut E this arguments h with
  | Ok v _ => v = this
  | Throw _ _ => True
  end.
Proof.
  unfold registerShortcut, bind_function. run.
  destruct (assert E arguments _ h) as [args h1|]; [|done].
  destruct (isDefined this); [|done].
  destruct (isFunction _); [|done].
  by destruct this.
Qed.

End Submit.

(** ** The accessors *)

(** C8: for a client the constructor has returned, [moodleUrl()] is the
    stored string and [apiUrl()] is that string followed by the constant API
    path; on any object, in any store, both accessors return without changing
    the store and [apiUrl()] is [moodleUrl() + MOODLE_API_PATH]. *)
Theorem apiUrl_is_moodleUrl_plus_path (E : Env) :
  (forall this h,
      isDefined this = true ->
      exists m,
        moodleUrl this h = Ok m h
        /\ apiUrl E this h = Ok (VStr (ToString E m +:+ MOODLE_API_PATH)) h)
  /\ (forall args h c h',
      MoodleWSClient E args h = Ok c h' ->
      exists s,
        moodleUrl c h' = Ok (VStr s) h'
        /\ apiUrl E c h' = Ok (VStr (s +:+ MOODLE_API_PATH)) h').
Proof.
  split.
  - intros this h Hd. exists (member h this "_moodleUrl").
    unfold moodleUrl, apiUrl. run. by rewrite Hd.
  - intros args h c h' Hok.
    apply MoodleWSClient_inv in Hok as (h2 & Hc & Hu & _ & _ & -> & ->).
    destruct (moodleBaseUrl_coerce (hd VUndefined args)) as [| | | |s| | |] eqn:Hs;
      try discriminate.
    exists s.
    destruct (options_coerce_total E
                (or_default (VRef (S (length h))) (hd VUndefined (tl (tl args))))
                (constructor_heap h)) as (h3 & Hc' & Hlen & _).
    rewrite Hc' in Hc. injection Hc as <-.
    assert (Hm : member (constructed (length h) (VStr s) (hd VUndefined (tl args))
                           (or_default (VRef (S (length h)))
                              (hd VUndefined (tl (tl args)))) h3)
                   (VRef (length h)) "_moodleUrl" = VStr s).
    { apply constructed_this. apply lookup_lt_is_Some.
      rewrite Hlen, constructor_heap_length. lia. }
    unfold moodleUrl, apiUrl. run. cbn [isDefined]. by rewrite Hm.
Qed.

Lemma apiUrl_is_moodleUrl_plus_path_witness :
  moodleUrl sample_client sample_client_heap
  = Ok (VStr "https://localhost/") sample_client_heap
  /\ apiUrl sampleEnv sample_client sample_client_heap
     = Ok (VStr "https://localhost/webservice/rest/server.php") sample_client_heap.
Proof.
  destruct (proj2 (apiUrl_is_moodleUrl_plus_path sampleEnv)
              [VStr sample_url; VStr sample_token] []
              sample_client sample_client_heap) as (s & Hm & Ha);
    [vm_compute; reflexivity|].
  assert (Hs : s = "https://localhost/").
  { assert (Hm' : moodleUrl sample_client sample_client_heap
                  = Ok (VStr "https://localhost/") sample_client_heap)
      by (vm_compute; reflexivity).
    rewrite Hm in Hm'. by injection Hm'. }
  subst s. split; [exact Hm | exact Ha].
Defined.

(** ** [submit]: the query, the request and the shortcuts *)

(** X19: the loop of [submit] over the dictionary that validation binds to
    the name [wsParameters] (the fourth argument of the call, or the literal
    default).  The query holds every entry of that dictionary but one named
    [__proto__], that one is never an entry of the query, and under a key
    the dictionary has no entry for the query is the fixed one: the stored
    token under [wstoken], the validated function name under [wsfunction],
    the stored data format under [moodlewsrestformat].  Nothing sets the
    three fixed keys apart: an entry of the dictionary under one of them
    replaces the fixed value. *)
Theorem query_merge (E : Env) (this : Value) (arguments : list Value)
    (h : Heap) (args : gmap string Value) (h1 : Heap) (r : ReqOpts) (h' : Heap) :
  submit_args E arguments h = Ok args h1 ->
  submit_reqOpts E this arguments h = Ok r h' ->
  let d := enumerate h' (arg args "wsParameters") in
  let tok := member h' this "_token" in
  let fn := arg args "wsFunctionName" in
  let fmt := member h' (member h' this "_options") "dataFormat" in
  h' = h1
  /\ (forall k x, k ≠ "__proto__" -> d !! k = Some x -> qs r !! k = Some x)
  /\ qs r !! "__proto__" = None
  /\ (forall k, d !! k = None -> qs r !! k = fixed_query tok fn fmt !! k)
  /\ (d !! "wstoken" = None -> qs r !! "wstoken" = Some tok)
  /\ (d !! "wsfunction" = None -> qs r !! "wsfunction" = Some fn)
  /\ (d !! "moodlewsrestformat" = None -> qs r !! "moodlewsrestformat" = Some fmt).
Proof.
  intros Ha Hr d tok fn fmt.
  apply submit_reqOpts_inv in Hr as (args' & Ha' & Hh & ->).
  rewrite Ha in Ha'. injection Ha' as <- <-.
  assert (Hq : forall k, d !! k = None ->
             (delete "__proto__" d ∪ fixed_query tok fn fmt) !! k
             = fixed_query tok fn fmt !! k).
  { intros k Hk. rewrite query_lookup.
    destruct (decide (k = "__proto__")) as [->|Hne].
    - by rewrite lookup_delete_eq.
    - by rewrite lookup_delete_ne, Hk. }
  cbn [qs]. fold d tok fn fmt.
  split; [done|]. split; [|split; [|split; [done|]]].
  - intros k x Hne Hk. by rewrite query_lookup, lookup_delete_ne, Hk.
  - by rewrite query_lookup, lookup_delete_eq.
  - repeat split; intros Hk; rewrite Hq by done; unfold fixed_query.
    + rewrite !lookup_insert_ne by done. by rewrite lookup_insert_eq.
    + rewrite lookup_insert_ne by done. by rewrite lookup_insert_eq.
    + by rewrite lookup_insert_eq.
Qed.

Lemma query_merge_witness :
  qs (request_of course_call_bound) !! "courseid" = Some (int 5)
  /\ qs (request_of course_call_bound) !! "wstoken" = Some (VStr sample_token).
Proof.
  destruct (query_merge sampleEnv sample_client course_call_bound sample_call_heap
              (value_or ∅ (submit_args sampleEnv course_call_bound sample_call_heap))
              (heap_of (submit_args sampleEnv course_call_bound sample_call_heap))
              (request_of course_call_bound)
              (heap_of (submit_reqOpts sampleEnv sample_client course_call_bound
                          sample_call_heap)))
    as (_ & Hin & _ & _ & Htok & _);
    [vm_compute; reflexivity | vm_compute; reflexivity |].
  split.
  - apply Hin; [discriminate|]. vm_compute; reflexivity.
  - rewrite Htok; vm_compute; reflexivity.
Defined.

(** With the sample client, a dictionary with entries under [wstoken] and
    [wsfunction], passed as fourth argument, replaces the stored token and
    the validated function name in the query. *)
Example fourth_argument_replaces_token :
  submit_reqOpts sampleEnv sample_client override_call sample_call_heap
  = Ok (request_of override_call) (sample_call_heap ++ [empty_object])%list
  /\ member sample_call_heap sample_client "_token" = VStr sample_token
  /\ qs (request_of override_call) !! "wstoken" = Some (VStr "evil")
  /\ qs (request_of override_call) !! "wsfunction" = Some (VStr "hijacked").
Proof. vm_compute. repeat split. Qed.

(** An entry named [__proto__] of the fourth argument is no entry of the
    query; the other entries are. *)
Example proto_entry_not_in_query :
  let d := {| cls := Plain;
              props := <["__proto__" := VStr "x"]> (<["courseid" := int 5]> ∅) |} in
  let o := submit_reqOpts sampleEnv sample_client
             [VStr "get"; VStr "core_fn"; VUndefined; VRef 2]
             (sample_client_heap ++ [d])%list in
  o = Ok (value_or no_request o) (heap_of o)
  /\ qs (value_or no_request o) !! "__proto__" = None
  /\ qs (value_or no_request o) !! "courseid" = Some (int 5).
Proof. vm_compute. repeat split. Qed.

(** With three arguments the dictionary is validated under the name
    [wsParameters] by the third constraint, and the fourth constraint, with
    its default, then takes the name: the third argument is not merged. *)
Example course_argument_not_merged :
  submit_reqOpts sampleEnv sample_client course_call sample_call_heap
  = Ok (request_of course_call) (sample_call_heap ++ [empty_object])%list
  /\ qs (request_of course_call) !! "courseid" = None
  /\ qs (request_of course_call) !! "wstoken" = Some (VStr sample_token).
Proof. vm_compute. repeat split. Qed.

(** C2 (the source departs from the claim): [submit] builds the request
    object and drops it, every call that returns evaluates to undefined; and
    the [uri] of the object it builds is the method [apiUrl] itself, not the
    endpoint URL the method returns.  The method, the TLS flag and the timeout
    of the object are as the claim says, and nothing is sent. *)
Theorem submit_discards_request :
  (forall E this arguments h,
      match submit E this arguments h with
      | Ok v _ => v = VUndefined
      | Throw _ _ => True
      end)
  /\ submit_reqOpts sampleEnv sample_client plain_call sample_call_heap
     = Ok (request_of plain_call) (sample_call_heap ++ [empty_object])%list
  /\ submit sampleEnv sample_client plain_call sample_call_heap
     = Ok VUndefined (sample_call_heap ++ [empty_object])%list
  /\ uri (request_of plain_call) = VMethod M_apiUrl
  /\ apiUrl sampleEnv sample_client sample_call_heap
     = Ok (VStr "https://localhost/webservice/rest/server.php") sample_call_heap
  /\ method (request_of plain_call) = VStr "GET"
  /\ strictSSL (request_of plain_call) = true
  /\ timeout (request_of plain_call) = int 5000.
Proof.
  split; [apply submit_value|].
  vm_compute. repeat split.
Qed.

(** C4 (the source departs from the claim): [registerShortcut] returns the
    instance and binds [submit], with the upper-cased method and the function
    name, under the shortcut name; calling the shortcut with [{courseid: 5}]
    evaluates to undefined, no request descriptor is produced.  The request
    object built and dropped inside the call has the method and the function
    name, the token and the format of the instance, and no [courseid]. *)
Theorem shortcut_call_returns_undefined :
  (forall E this arguments h,
      match registerShortcut E this arguments h with
      | Ok v _ => v = this
      | Throw _ _ => True
      end)
  /\ registerShortcut sampleEnv sample_client
       [VStr "getUsers"; VStr "get"; VStr "core_user_get_users"] sample_call_heap
     = Ok sample_client shortcut_heap
  /\ member shortcut_heap sample_client "getUsers"
     = VBound (VMethod M_submit) sample_client
         (VStr "GET") (VStr "core_user_get_users")
  /\ call_method sampleEnv sample_client "getUsers" [VRef 3] shortcut_heap
     = Ok VUndefined (shortcut_heap ++ [empty_object])%list
  /\ let r := value_or no_request
                (submit_reqOpts sampleEnv sample_client
                   [VStr "GET"; VStr "core_user_get_users"; VRef 3] shortcut_heap) in
     method r = VStr "GET"
     /\ qs r !! "wsfunction" = Some (VStr "core_user_get_users")
     /\ qs r !! "wstoken" = Some (VStr sample_token)
     /\ qs r !! "moodlewsrestformat" = Some (VStr "json")
     /\ qs r !! "courseid" = None.
Proof.
  split; [apply registerShortcut_value|].
  vm_compute. repeat split.
Qed.

(** ** The reusable constraints *)

Lemma not_blank (p : ascii -> bool) (s : string) :
  (forall c, p c = true -> is_space c = false) ->
  s <> "" -> all_chars p s = true -> all_chars is_space s = false.
Proof.
  intros Hp Hs Hall. destruct s as [|c s]; [done|].
  simpl in *. apply andb_prop in Hall as [Hc _]. by rewrite (Hp c Hc).
Qed.

Lemma name_char_not_space (c : ascii) :
  is_lower c || is_underscore c = true -> is_space c = false.
Proof.
  unfold is_lower, is_underscore, is_space, between.
  destruct (Nat.leb_spec 97 (code c)), (Nat.leb_spec (code c) 122),
    (Nat.eqb_spec (code c) 95), (Nat.leb_spec 9 (code c)),
    (Nat.leb_spec (code c) 13), (Nat.eqb_spec (code c) 32),
    (Nat.eqb_spec (code c) 160); simpl; intros; try done; lia.
Qed.

Lemma httpMethod_checks (E : Env) (h : Heap) (v : Value) :
  first_rejection E h (validators (extendObject "method" (vpCons_httpMethod E))) v = None
  <-> v = VStr "GET" \/ v = VStr "POST" \/ v = VStr "PUT".
Proof.
  destruct v as [| | |[q|]|s|l| |]; simpl;
    try (split; [congruence | intros [|[|]]; congruence]).
  - destruct (all_chars is_space s) eqn:Hb.
    + split; [congruence|]. intros [[= ->]|[[= ->]|[= ->]]]; discriminate.
    + unfold pattern_httpMethod.
      destruct (String.eqb_spec s "GET") as [->|H1]; simpl; [split; auto|].
      destruct (String.eqb_spec s "POST") as [->|H2]; simpl; [split; auto|].
      destruct (String.eqb_spec s "PUT") as [->|H3]; simpl; [split; auto|].
      split; [congruence|]. intros [|[|]]; congruence.
  - destruct (h !! l) as [o|]; [destruct (cls o); try destruct (bool_decide _)|];
      (split; [congruence | intros [|[|]]; congruence]).
Qed.

Lemma wsFunctionName_checks (E : Env) (h : Heap) (v : Value) :
  first_rejection E h
    (validators (extendObject "wsFunctionName" (vpCons_wsFunctionName E))) v = None
  <-> exists s, v = VStr s /\ pattern_wsFunctionName s = true.
Proof.
  destruct v as [| | |[q|]|s|l| |]; simpl;
    try (split; [congruence | intros (s' & ? & _); congruence]).
  - destruct (pattern_wsFunctionName s) eqn:Hp.
    + assert (Hb : all_chars is_space s = false).
      { unfold pattern_wsFunctionName in Hp. apply andb_prop in Hp as [Hn Hall].
        apply (not_blank _ s name_char_not_space); [|done].
        intros ->. discriminate. }
      rewrite Hb. split; [eauto|done].
    + destruct (all_chars is_space s);
        (split; [congruence | intros (s' & [= <-] & ?); congruence]).
  - destruct (h !! l) as [o|]; [destruct (cls o); try destruct (bool_decide _)|];
      (split; [congruence | intros (s' & ? & _); congruence]).
Qed.

Lemma submit_bag (m f x w : Value) :
  let bag := <["wsParameters" := w]>
               (<["wsParameters" := x]>
                  (<["wsFunctionName" := f]> (<["method" := m]> ∅))) in
  arg bag "method" = m /\ arg bag "wsFunctionName" = f /\ arg bag "wsParameters" = w.
Proof.
  unfold arg. split; [|split].
  - rewrite !lookup_insert_ne by done. by rewrite lookup_insert_eq.
  - rewrite !lookup_insert_ne by done. by rewrite lookup_insert_eq.
  - by rewrite lookup_insert_eq.
Qed.

(** C9: with the string coercion of the validation package leaving strings as
    they are, the call [submit('get', 'CORE_Fn', {})] validates its method as
    GET and its function name as core_fn.  In general [httpMethod] turns a
    string into upper case, an empty input (undefined, or a blank string) into
    GET, and accepts exactly GET, POST and PUT; [wsFunctionName] turns a string
    into lower case and accepts exactly the non-empty strings of lower-case
    letters and underscores. *)
Theorem method_and_function_name_coercion (E : Env) :
  (forall s, c_toString E (VStr s) = VStr s) ->
  (forall h x,
      isPlainObject h x = true ->
      exists args h',
        submit_args E [VStr "get"; VStr "CORE_Fn"; x] h = Ok args h'
        /\ arg args "method" = VStr "GET"
        /\ arg args "wsFunctionName" = VStr "core_fn")
  /\ (forall h s,
        normalise_one (extendObject "method" (vpCons_httpMethod E)) (VStr s) h
        = Ok (VStr (if all_chars is_space s then "GET" else toUpperCase s)) h)
  /\ (forall h,
        normalise_one (extendObject "method" (vpCons_httpMethod E)) VUndefined h
        = Ok (VStr "GET") h)
  /\ (forall h v,
        first_rejection E h
          (validators (extendObject "method" (vpCons_httpMethod E))) v = None
        <-> v = VStr "GET" \/ v = VStr "POST" \/ v = VStr "PUT")
  /\ (forall h s,
        normalise_one (extendObject "wsFunctionName" (vpCons_wsFunctionName E))
          (VStr s) h
        = Ok (VStr (toLowerCase s)) h)
  /\ (forall h v,
        first_rejection E h
          (validators (extendObject "wsFunctionName" (vpCons_wsFunctionName E))) v
        = None
        <-> exists s, v = VStr s /\ s <> ""
                      /\ all_chars (fun c => is_lower c || is_underscore c) s = true).
Proof.
  intros Hstr.
  assert (Hm : forall h s,
             normalise_one (extendObject "method" (vpCons_httpMethod E)) (VStr s) h
             = Ok (VStr (if all_chars is_space s then "GET" else toUpperCase s)) h).
  { intros h s. unfold normalise_one, apply_default.
    cbn [extendObject vpCons_httpMethod coerce defaultWhenUndefined
         defaultWhenEmpty isEmpty].
    unfold pure, httpMethod_coerce. run.
    destruct (all_chars is_space s); by rewrite Hstr. }
  assert (Hf : forall h s,
             normalise_one (extendObject "wsFunctionName" (vpCons_wsFunctionName E))
               (VStr s) h
             = Ok (VStr (toLowerCase s)) h).
  { intros h s. unfold normalise_one, apply_default.
    cbn [extendObject vpCons_wsFunctionName coerce defaultWhenUndefined
         defaultWhenEmpty].
    unfold pure, lowercase_coerce. run. by rewrite Hstr. }
  split; [|split; [exact Hm|split; [|split; [|split; [exact Hf|]]]]].
  - intros h x Hx.
    unfold submit_args, assert. run.
    cbn [normalise submit_constraints hd tl]. run.
    rewrite Hm, Hf.
    replace (VStr (if all_chars is_space "get" then "GET" else toUpperCase "get"))
      with (VStr "GET") by reflexivity.
    replace (VStr (toLowerCase "CORE_Fn")) with (VStr "core_fn") by reflexivity.
    unfold normalise_one. run. cbn [coerce name extendObject].
    rewrite (apply_default_none _ _ x) by reflexivity.
    rewrite (apply_default_undefined _ _ _ (VRef (length h))) by reflexivity.
    cbn [or_default].
    destruct (submit_bag (VStr "GET") (VStr "core_fn") x (VRef (length h)))
      as (Hbm & Hbf & Hbw).
    unfold submit_constraints.
    cbn [first_failure name validators extendObject].
    rewrite Hbm, Hbf, Hbw.
    assert (Hplain : isPlainObject (h ++ [empty_object])%list (VRef (length h)) = true).
    { simpl. by rewrite list_lookup_middle. }
    replace (first_rejection E (h ++ [empty_object])%list
               (presence :: validators (vpCons_httpMethod E)) (VStr "GET"))
      with (@None Rejection) by reflexivity.
    replace (first_rejection E (h ++ [empty_object])%list
               (presence :: validators (vpCons_wsFunctionName E)) (VStr "core_fn"))
      with (@None Rejection) by reflexivity.
    cbn [first_rejection rejects isDefined negb]. rewrite Hplain. cbn [negb].
    eexists _, _. split; [reflexivity|]. by split.
  - intros h. unfold normalise_one, apply_default.
    cbn [extendObject vpCons_httpMethod coerce defaultWhenUndefined
         defaultWhenEmpty isEmpty].
    unfold pure, httpMethod_coerce. run. by rewrite Hstr.
  - intros h v. apply httpMethod_checks.
  - intros h v. rewrite wsFunctionName_checks. unfold pattern_wsFunctionName.
    split; intros (s & -> & Hp); exists s; (split; [done|]).
    + apply andb_prop in Hp as [Hn Hall]. split; [|done].
      intros ->. discriminate.
    + destruct Hp as [Hn Hall]. rewrite Hall, andb_true_r.
      apply negb_true_iff. by apply String.eqb_neq.
Qed.

Lemma method_and_function_name_coercion_witness :
  exists args h',
    submit_args sampleEnv [VStr "get"; VStr "CORE_Fn"; VRef 4] sample_call_heap
    = Ok args h'
    /\ arg args "method" = VStr "GET"
    /\ arg args "wsFunctionName" = VStr "core_fn".
Proof.
  apply (proj1 (method_and_function_name_coercion sampleEnv
                  (fun s => eq_refl))).
  reflexivity.
Defined.


(** ** Running [registerShortcut] *)

Section Shortcut.
Context (E : Env).
Implicit Types (h : Heap) (l : loc) (v this : Value).

Lemma apply_default_empty h (c : Constraints) v d :
  defaultWhenUndefined c = None -> defaultWhenEmpty c = Some d ->
  apply_default h c v = if isEmpty h v then d else v.
Proof. intros H1 H2. unfold apply_default. rewrite H1, H2. by destruct v. Qed.

Lemma shortcut_bag (n m f : Value) :
  let bag := <["wsFunctionName" := f]> (<["method" := m]> (<["shortcut" := n]> ∅)) in
  arg bag "shortcut" = n /\ arg bag "method" = m /\ arg bag "wsFunctionName" = f.
Proof.
  unfold arg. split; [|split].
  - rewrite !lookup_insert_ne by done. by rewrite lookup_insert_eq.
  - rewrite lookup_insert_ne by done. by rewrite lookup_insert_eq.
  - by rewrite lookup_insert_eq.
Qed.

Lemma registerShortcut_run this arguments h :
  registerShortcut E this arguments h =
    let n := shortcut_name E arguments in
    let m := shortcut_method E h arguments in
    let f := shortcut_function E arguments in
    match first_rejection E h
            (validators (extendObject "shortcut" (vpCons_jsMethodName E))) n with
    | Some (k, r, x) =>
        Throw (ValidationError {| parameterName := "shortcut"; attribute := k;
                                  reason := r; offendingValue := x |}) h
    | None =>
    match first_rejection E h
            (validators (extendObject "method" (vpCons_httpMethod E))) m with
    | Some (k, r, x) =>
        Throw (ValidationError {| parameterName := "method"; attribute := k;
                                  reason := r; offendingValue := x |}) h
    | None =>
    match first_rejection E h
            (validators (extendObject "wsFunctionName" (vpCons_wsFunctionName E))) f with
    | Some (k, r, x) =>
        Throw (ValidationError {| parameterName := "wsFunctionName"; attribute := k;
                                  reason := r; offendingValue := x |}) h
    | None =>
        if isDefined this then
          if isFunction (member h this "submit") then
            match set this (ToString E n)
                    (VBound (member h this "submit") this m f) h with
            | Ok _ h' => Ok this h'
            | Throw e h' => Throw e h'
            end
          else Throw TypeError h
        else Throw TypeError h
    end end end.
Proof.
  unfold registerShortcut, assert, bind_function, shortcut_name, shortcut_method,
    shortcut_function.
  run. cbn [normalise registerShortcut_constraints hd tl]. unfold normalise_one.
  cbn [coerce name extendObject vpCons_jsMethodName vpCons_httpMethod
       vpCons_wsFunctionName]. unfold pure. run.
  rewrite (apply_default_none _ _ (hd VUndefined arguments)) by reflexivity.
  rewrite (apply_default_empty _ _ (hd VUndefined (tl arguments)) (VStr "GET"))
    by reflexivity.
  rewrite (apply_default_none _ _ (hd VUndefined (tl (tl arguments)))) by reflexivity.
  set (n := c_toString E _). set (m := httpMethod_coerce E _).
  set (f := lowercase_coerce E _).
  destruct (shortcut_bag n m f) as (Hn & Hm & Hf).
  unfold registerShortcut_constraints.
  cbn [first_failure name validators extendObject]. rewrite Hn, Hm, Hf.
  destruct (first_rejection E h _ n) as [[[? ?] ?]|]; [reflexivity|].
  destruct (first_rejection E h _ m) as [[[? ?] ?]|]; [reflexivity|].
  destruct (first_rejection E h _ f) as [[[? ?] ?]|]; [reflexivity|].
  rewrite Hn, Hm, Hf.
  destruct (isDefined this); [|reflexivity].
  destruct (isFunction _); reflexivity.
Qed.

Lemma letter_not_space (c : ascii) :
  is_lower c || is_upper c || is_underscore c = true -> is_space c = false.
Proof.
  unfold is_lower, is_upper, is_underscore, is_space, between.
  destruct (Nat.leb_spec 97 (code c)), (Nat.leb_spec (code c) 122),
    (Nat.leb_spec 65 (code c)), (Nat.leb_spec (code c) 90),
    (Nat.eqb_spec (code c) 95), (Nat.leb_spec 9 (code c)),
    (Nat.leb_spec (code c) 13), (Nat.eqb_spec (code c) 32),
    (Nat.eqb_spec (code c) 160); simpl; intros; try done; lia.
Qed.

Lemma jsMethodName_checks h v :
  first_rejection E h
    (validators (extendObject "shortcut" (vpCons_jsMethodName E))) v = None
  <-> exists s, v = VStr s /\ pattern_jsMethodName s = true.
Proof.
  destruct v as [| | |[q|]|s|l| |]; simpl;
    try (split; [congruence | intros (s' & ? & _); congruence]).
  - destruct (pattern_jsMethodName s) eqn:Hp.
    + assert (Hb : all_chars is_space s = false).
      { unfold pattern_jsMethodName in Hp. apply andb_prop in Hp as [Hn Hall].
        apply (not_blank _ s letter_not_space); [|done].
        intros ->. discriminate. }
      rewrite Hb. split; [eauto|done].
    + destruct (all_chars is_space s);
        (split; [congruence | intros (s' & [= <-] & ?); congruence]).
  - destruct (h !! l) as [o|]; [destruct (cls o); try destruct (bool_decide _)|];
      (split; [congruence | intros (s' & ? & _); congruence]).
Qed.

(** What a call of [registerShortcut] that returns has done. *)
Lemma registerShortcut_inv this arguments h v h' :
  registerShortcut E this arguments h = Ok v h' ->
  exists s,
    shortcut_name E arguments = VStr s
    /\ pattern_jsMethodName s = true
    /\ first_rejection E h
         (validators (extendObject "method" (vpCons_httpMethod E)))
         (shortcut_method E h arguments) = None
    /\ first_rejection E h
         (validators (extendObject "wsFunctionName" (vpCons_wsFunctionName E)))
         (shortcut_function E arguments) = None
    /\ isDefined this = true
    /\ v = this
    /\ set this s (VBound (member h this "submit") this
                     (shortcut_method E h arguments)
                     (shortcut_function E arguments)) h = Ok tt h'.
Proof.
  rewrite registerShortcut_run. cbn zeta.
  destruct (first_rejection E h _ (shortcut_name E arguments))
    as [[[? ?] ?]|] eqn:Hn; [discriminate|].
  destruct (first_rejection E h _ (shortcut_method E h arguments))
    as [[[? ?] ?]|] eqn:Hm; [discriminate|].
  destruct (first_rejection E h _ (shortcut_function E arguments))
    as [[[? ?] ?]|] eqn:Hf; [discriminate|].
  apply jsMethodName_checks in Hn as (s & Hs & Hp). rewrite Hs. cbn [ToString].
  destruct (isDefined this) eqn:Hd; [|discriminate].
  destruct (isFunction _); [|discriminate].
  destruct (set this s _ h) as [[] h2|] eqn:Hset; [|discriminate].
  intros [= <- <-]. exists s. by repeat split.
Qed.

End Shortcut.

(** X1: when [registerShortcut] returns on an instance, it returns that
    instance, and what is then read under the validated shortcut name is
    [submit] bound to the instance with the normalised method and function
    name, whatever the instance had under that name (a field such as
    [_token] or a method such as [submit] included).  Every other object is
    as before, and so is every other property of the instance when the name
    is not [__proto__] (a name the pattern accepts: the assignment then
    replaces the prototype of the instance, and with it what the instance
    inherits). *)
Theorem registerShortcut_binds (E : Env) (l : loc) (arguments : list Value)
    (h : Heap) (v : Value) (h' : Heap) :
  is_Some (h !! l) ->
  registerShortcut E (VRef l) arguments h = Ok v h' ->
  exists s,
    shortcut_name E arguments = VStr s
    /\ pattern_jsMethodName s = true
    /\ v = VRef l
    /\ member h' (VRef l) s
       = VBound (member h (VRef l) "submit") (VRef l)
           (shortcut_method E h arguments) (shortcut_function E arguments)
    /\ (s <> "__proto__" ->
        forall k, k <> s -> member h' (VRef l) k = member h (VRef l) k)
    /\ (forall l', l' <> l -> h' !! l' = h !! l')
    /\ length h' = length h.
Proof.
  intros Hl Hok.
  apply registerShortcut_inv in Hok as (s & Hs & Hp & _ & _ & _ & -> & Hset).
  injection Hset as <-.
  exists s. repeat split; try done.
  - by apply member_write_object.
  - intros Hne k Hk. by apply member_write_key.
  - intros l' Hl'. by apply lookup_write_ne.
  - apply write_length.
Qed.

Lemma registerShortcut_binds_witness :
  exists s,
    shortcut_name sampleEnv [VStr "_token"; VStr "get"; VStr "core_fn"] = VStr s
    /\ member (heap_of (registerShortcut sampleEnv sample_client
                          [VStr "_token"; VStr "get"; VStr "core_fn"]
                          sample_client_heap)) sample_client s
       = VBound (VMethod M_submit) sample_client (VStr "GET") (VStr "core_fn").
Proof.
  destruct (registerShortcut_binds sampleEnv 0
              [VStr "_token"; VStr "get"; VStr "core_fn"] sample_client_heap
              sample_client
              (heap_of (registerShortcut sampleEnv sample_client
                          [VStr "_token"; VStr "get"; VStr "core_fn"]
                          sample_client_heap)))
    as (s & Hs & _ & _ & Hm & _);
    [vm_compute; eauto | vm_compute; reflexivity |].
  exists s. split; [exact Hs | exact Hm].
Defined.

(** The name [__proto__] passes the pattern.  Registered on the sample
    client it makes no property: the bound function becomes the prototype of
    the instance, which then has neither [submit] nor [registerShortcut]. *)
Example proto_shortcut_replaces_prototype :
  let o := registerShortcut sampleEnv sample_client
             [VStr "__proto__"; VStr "get"; VStr "core_fn"] sample_client_heap in
  o = Ok sample_client (heap_of o)
  /\ member (heap_of o) sample_client "__proto__"
     = VBound (VMethod M_submit) sample_client (VStr "GET") (VStr "core_fn")
  /\ enumerate (heap_of o) sample_client !! "__proto__" = None
  /\ member sample_client_heap sample_client "submit" = VMethod M_submit
  /\ member (heap_of o) sample_client "submit" = VUndefined
  /\ member (heap_of o) sample_client "registerShortcut" = VUndefined.
Proof. vm_compute. repeat split. Qed.

(** X2: a shortcut name that is a string and does not consist of letters
    and underscores only (empty, or with a digit or any other character) makes
    [registerShortcut] throw a validation failure for the parameter
    [shortcut]; the store is unchanged, nothing is bound. *)
Theorem registerShortcut_rejects_name (E : Env) (this : Value) (s : string)
    (rest : list Value) (h : Heap) :
  c_toString E (VStr s) = VStr s ->
  pattern_jsMethodName s = false ->
  exists f,
    registerShortcut E this (VStr s :: rest) h = Throw (ValidationError f) h
    /\ parameterName f = "shortcut"
    /\ offendingValue f = VStr s.
Proof.
  intros Hs Hp. rewrite registerShortcut_run. cbn zeta.
  unfold shortcut_name. cbn [hd]. rewrite Hs.
  destruct (first_rejection E h _ (VStr s)) as [[[k r] x]|] eqn:Hn.
  - eexists. split; [reflexivity|]. split; [reflexivity|]. cbn.
    revert Hn. simpl. destruct (all_chars is_space s); [by intros [= <- <- <-]|].
    rewrite Hp. by intros [= <- <- <-].
  - apply jsMethodName_checks in Hn as (s' & [= <-] & Hp'). congruence.
Qed.

Lemma registerShortcut_rejects_name_witness :
  exists f,
    registerShortcut sampleEnv sample_client
      [VStr "getUsers2"; VStr "get"; VStr "core_fn"] sample_client_heap
    = Throw (ValidationError f) sample_client_heap
    /\ parameterName f = "shortcut"
    /\ offendingValue f = VStr "getUsers2".
Proof.
  apply (registerShortcut_rejects_name sampleEnv sample_client "getUsers2");
    reflexivity.
Defined.

(** X3: after [registerShortcut] has returned on an instance that has the
    [submit] of its class, calling the shortcut with some arguments is calling
    [submit] on the instance with the registered method and function name
    followed by those arguments. *)
Theorem shortcut_call_is_submit (E : Env) (l : loc) (arguments : list Value)
    (h : Heap) (v : Value) (h' : Heap) (s : string) (args : list Value) :
  is_Some (h !! l) ->
  member h (VRef l) "submit" = VMethod M_submit ->
  registerShortcut E (VRef l) arguments h = Ok v h' ->
  shortcut_name E arguments = VStr s ->
  call_method E (VRef l) s args h'
  = submit E (VRef l)
      (shortcut_method E h arguments :: shortcut_function E arguments :: args) h'.
Proof.
  intros Hl Hsub Hok Hs.
  apply registerShortcut_inv in Hok as (s' & Hs' & _ & _ & _ & _ & _ & Hset).
  rewrite Hs in Hs'. injection Hs' as <-. injection Hset as <-.
  unfold call_method. run. cbn [isDefined].
  rewrite member_write_object by done. unfold member in Hsub. rewrite Hsub.
  reflexivity.
Qed.

Lemma shortcut_call_is_submit_witness :
  call_method sampleEnv sample_client "getUsers" [VRef 3] shortcut_heap
  = submit sampleEnv sample_client
      [VStr "GET"; VStr "core_user_get_users"; VRef 3] shortcut_heap.
Proof.
  apply (shortcut_call_is_submit sampleEnv 0
           [VStr "getUsers"; VStr "get"; VStr "core_user_get_users"]
           sample_call_heap sample_client shortcut_heap "getUsers" [VRef 3]).
  - vm_compute. eauto.
  - vm_compute. reflexivity.
  - vm_compute. reflexivity.
  - reflexivity.
Defined.


(** ** Running the validation of [submit] *)

Section SubmitArgs.
Context (E : Env).
Implicit Types (h : Heap) (l : loc) (v this : Value).

Lemma submit_args_run arguments h :
  submit_args E arguments h =
    let h1 := (h ++ [empty_object])%list in
    let m := submit_method E h1 arguments in
    let f := submit_function E arguments in
    let w := or_default (VRef (length h)) (hd VUndefined (tl (tl (tl arguments)))) in
    match first_rejection E h1
            (validators (extendObject "method" (vpCons_httpMethod E))) m with
    | Some (k, r, x) =>
        Throw (ValidationError {| parameterName := "method"; attribute := k;
                                  reason := r; offendingValue := x |}) h1
    | None =>
    match first_rejection E h1
            (validators (extendObject "wsFunctionName" (vpCons_wsFunctionName E))) f with
    | Some (k, r, x) =>
        Throw (ValidationError {| parameterName := "wsFunctionName"; attribute := k;
                                  reason := r; offendingValue := x |}) h1
    | None =>
    match first_rejection E h1 [dictionary []] w with
    | Some (k, r, x) =>
        Throw (ValidationError {| parameterName := "wsParameters"; attribute := k;
                                  reason := r; offendingValue := x |}) h1
    | None =>
        Ok (<["wsParameters" := w]>
              (<["wsParameters" := hd VUndefined (tl (tl arguments))]>
                 (<["wsFunctionName" := f]> (<["method" := m]> ∅)))) h1
    end end end.
Proof.
  unfold submit_args, assert, submit_method, submit_function.
  run. cbn [normalise submit_constraints hd tl]. unfold normalise_one.
  cbn [coerce name extendObject vpCons_httpMethod vpCons_wsFunctionName].
  unfold pure. run.
  rewrite (apply_default_empty _ _ (hd VUndefined arguments) (VStr "GET"))
    by reflexivity.
  rewrite (apply_default_none _ _ (hd VUndefined (tl arguments))) by reflexivity.
  rewrite (apply_default_none _ _ (hd VUndefined (tl (tl arguments)))) by reflexivity.
  rewrite (apply_default_undefined _ _ (hd VUndefined (tl (tl (tl arguments))))
             (VRef (length h))) by reflexivity.
  set (m := httpMethod_coerce E _). set (f := lowercase_coerce E _).
  set (w := or_default _ _).
  destruct (submit_bag m f (hd VUndefined (tl (tl arguments))) w) as (Hm & Hf & Hw).
  unfold submit_constraints.
  cbn [first_failure name validators extendObject]. rewrite Hm, Hf, Hw.
  destruct (first_rejection E _ _ m) as [[[? ?] ?]|]; [reflexivity|].
  destruct (first_rejection E _ _ f) as [[[? ?] ?]|]; [reflexivity|].
  destruct (first_rejection E _ [dictionary []] w) as [[[? ?] ?]|]; reflexivity.
Qed.

Lemma submit_args_heap arguments h :
  heap_of (submit_args E arguments h) = (h ++ [empty_object])%list.
Proof.
  rewrite submit_args_run. cbn zeta.
  repeat match goal with
  | |- context [first_rejection E ?a ?b ?c] =>
      destruct (first_rejection E a b c) as [[[? ?] ?]|]; try reflexivity
  end.
Qed.

End SubmitArgs.

(** C1 (the source departs from the claim): the documentation of [submit]
    has the third argument merged into the query, where it can replace the
    default data format.  The code does not merge it.  In every call of
    [submit] without a fourth argument that builds its request, whatever the
    third argument holds, the query is the three fixed entries: the stored
    token under [wstoken], the validated function name under [wsfunction]
    and the stored data format under [moodlewsrestformat].  So no entry of
    the third argument replaces the token or the function name, and none
    replaces the data format either. *)
Theorem third_argument_never_merged (E : Env) (this : Value)
    (arguments : list Value) (h : Heap) (r : ReqOpts) (h' : Heap) :
  hd VUndefined (tl (tl (tl arguments))) = VUndefined ->
  submit_reqOpts E this arguments h = Ok r h' ->
  qs r = fixed_query (member h' this "_token") (submit_function E arguments)
           (member h' (member h' this "_options") "dataFormat").
Proof.
  intros H4 Hr.
  apply submit_reqOpts_inv in Hr as (args & Ha & Hh & ->).
  rewrite submit_args_run in Ha. cbn zeta in Ha. rewrite H4 in Ha.
  cbn [or_default] in Ha.
  destruct (first_rejection E _ _ (submit_method E _ arguments))
    as [[[? ?] ?]|]; [discriminate|].
  destruct (first_rejection E _ _ (submit_function E arguments))
    as [[[? ?] ?]|]; [discriminate|].
  destruct (first_rejection E _ [dictionary []] (VRef (length h)))
    as [[[? ?] ?]|]; [discriminate|].
  injection Ha as <- _.
  destruct (submit_bag (submit_method E (h ++ [empty_object])%list arguments)
              (submit_function E arguments)
              (hd VUndefined (tl (tl arguments))) (VRef (length h)))
    as (_ & Hf & Hw).
  cbn zeta in Hf, Hw. cbn [qs]. rewrite Hf, Hw, Hh.
  unfold enumerate. rewrite list_lookup_middle by done.
  cbn [props empty_object]. by rewrite delete_empty, (left_id_L ∅ (∪)).
Qed.

Lemma third_argument_never_merged_witness :
  enumerate format_call_heap (VRef 2) !! "moodlewsrestformat" = Some (VStr "xml")
  /\ submit_reqOpts sampleEnv sample_client format_call format_call_heap
     = Ok format_request (format_call_heap ++ [empty_object])%list
  /\ qs format_request
     = fixed_query (VStr sample_token) (VStr "core_fn") (VStr "json").
Proof.
  split; [vm_compute; reflexivity|].
  split; [vm_compute; reflexivity|].
  rewrite (third_argument_never_merged sampleEnv sample_client format_call
             format_call_heap format_request
             (format_call_heap ++ [empty_object])%list);
    vm_compute; reflexivity.
Defined.

(** X4: whatever its outcome, [submit] leaves every object of the store as
    it was: the store only gains the empty object of the literal default. *)
Theorem submit_extends_store (E : Env) (this : Value) (arguments : list Value)
    (h : Heap) :
  heap_of (submit E this arguments h) = (h ++ [empty_object])%list
  /\ heap_of (submit_reqOpts E this arguments h) = (h ++ [empty_object])%list.
Proof.
  assert (Hr : heap_of (submit_reqOpts E this arguments h)
               = (h ++ [empty_object])%list).
  { pose proof (submit_args_heap E arguments h) as Ha.
    unfold submit_reqOpts. run.
    destruct (submit_args E arguments h) as [args h1|e h1]; simpl in Ha;
      subst h1; [|reflexivity].
    destruct (isDefined this); [|reflexivity].
    destruct (isDefined _); reflexivity. }
  split; [|exact Hr].
  unfold submit. run.
  by destruct (submit_reqOpts E this arguments h).
Qed.

(** X5: a method given as a string that is not blank and whose upper-case
    form is none of GET, POST and PUT makes [submit] throw a validation failure
    for the parameter [method], reporting the upper-cased value. *)
Theorem submit_rejects_method (E : Env) (this : Value) (s : string)
    (rest : list Value) (h : Heap) :
  c_toString E (VStr s) = VStr s ->
  all_chars is_space s = false ->
  pattern_httpMethod (toUpperCase s) = false ->
  exists f,
    submit E this (VStr s :: rest) h
    = Throw (ValidationError f) (h ++ [empty_object])%list
    /\ parameterName f = "method"
    /\ offendingValue f = VStr (toUpperCase s).
Proof.
  intros Hs Hb Hp.
  unfold submit, submit_reqOpts. run. rewrite submit_args_run. cbn zeta.
  unfold submit_method. cbn [hd isEmpty]. rewrite Hb.
  unfold httpMethod_coerce. rewrite Hs.
  destruct (first_rejection E _ _ (VStr (toUpperCase s))) as [[[k r] x]|] eqn:Hm.
  - eexists. split; [reflexivity|]. split; [reflexivity|]. cbn.
    revert Hm. simpl. destruct (all_chars is_space (toUpperCase s));
      [by intros [= <- <- <-]|].
    rewrite Hp. by intros [= <- <- <-].
  - apply httpMethod_checks in Hm.
    unfold pattern_httpMethod in Hp.
    destruct Hm as [[= Hm]|[[= Hm]|[= Hm]]]; rewrite Hm in Hp; discriminate.
Qed.

Lemma submit_rejects_method_witness :
  exists f,
    submit sampleEnv sample_client [VStr "delete"; VStr "core_fn"] sample_client_heap
    = Throw (ValidationError f) (sample_client_heap ++ [empty_object])%list
    /\ parameterName f = "method"
    /\ offendingValue f = VStr "DELETE".
Proof.
  apply (submit_rejects_method sampleEnv sample_client "delete"); reflexivity.
Defined.


(** ** Coercions applied twice *)

Lemma lower_char_fixed (c : ascii) :
  is_lower c || is_underscore c = true -> lower_char c = c.
Proof.
  unfold lower_char, is_lower, is_upper, is_underscore, between.
  destruct (Nat.leb_spec 97 (code c)), (Nat.leb_spec (code c) 122),
    (Nat.leb_spec 65 (code c)), (Nat.leb_spec (code c) 90),
    (Nat.eqb_spec (code c) 95); simpl; intros; try done; lia.
Qed.

Lemma toLowerCase_fixed (s : string) :
  all_chars (fun c => is_lower c || is_underscore c) s = true ->
  toLowerCase s = s.
Proof.
  induction s as [|c s IH]; [done|]. simpl. intros Hs.
  apply andb_prop in Hs as [Hc Hs].
  unfold toLowerCase in *. simpl. by rewrite lower_char_fixed, IH.
Qed.

(** X6: the method and the function name that [registerShortcut] has
    validated are left as they are when [submit] normalises them again, so a
    shortcut submits exactly what was registered. *)
Theorem shortcut_arguments_stable (E : Env) (this : Value)
    (arguments : list Value) (h : Heap) (v : Value) (h' : Heap)
    (args : list Value) (h2 : Heap) :
  (forall s, c_toString E (VStr s) = VStr s) ->
  registerShortcut E this arguments h = Ok v h' ->
  let m := shortcut_method E h arguments in
  let f := shortcut_function E arguments in
  submit_method E h2 (m :: f :: args) = m
  /\ submit_function E (m :: f :: args) = f.
Proof.
  intros Hstr Hok. cbn zeta.
  apply registerShortcut_inv in Hok as (s & _ & _ & Hm & Hf & _).
  apply httpMethod_checks in Hm.
  apply wsFunctionName_checks in Hf as (fs & Hfs & Hp).
  unfold submit_method, submit_function. cbn [hd tl].
  split.
  - destruct Hm as [Hm | [Hm | Hm]]; rewrite Hm;
      match goal with |- context [isEmpty h2 ?x] =>
        replace (isEmpty h2 x) with false by reflexivity end;
      unfold httpMethod_coerce; by rewrite Hstr.
  - rewrite Hfs. unfold lowercase_coerce. rewrite Hstr.
    unfold pattern_wsFunctionName in Hp. apply andb_prop in Hp as [_ Hall].
    by rewrite toLowerCase_fixed.
Qed.

Lemma shortcut_arguments_stable_witness :
  submit_method sampleEnv []
    [VStr "PUT"; VStr "core_user_get_users"; VRef 3] = VStr "PUT"
  /\ submit_function sampleEnv
       [VStr "PUT"; VStr "core_user_get_users"; VRef 3]
     = VStr "core_user_get_users".
Proof.
  apply (shortcut_arguments_stable sampleEnv sample_client
           [VStr "getUsers"; VStr "put"; VStr "CORE_user_get_USERS"]
           sample_call_heap sample_client
           (heap_of (registerShortcut sampleEnv sample_client
                       [VStr "getUsers"; VStr "put"; VStr "CORE_user_get_USERS"]
                       sample_call_heap))
           [VRef 3] []).
  - reflexivity.
  - vm_compute. reflexivity.
Defined.

(** X7: with an accepted method, a function name given as a string whose
    lower-case form is not a non-empty string of lower-case letters and
    underscores makes [submit] throw a validation failure for the parameter
    [wsFunctionName], reporting the lower-cased value. *)
Theorem submit_rejects_function_name (E : Env) (this : Value) (a : Value)
    (s : string) (rest : list Value) (h : Heap) :
  c_toString E (VStr s) = VStr s ->
  first_rejection E (h ++ [empty_object])%list
    (validators (extendObject "method" (vpCons_httpMethod E)))
    (submit_method E (h ++ [empty_object])%list (a :: VStr s :: rest)) = None ->
  pattern_wsFunctionName (toLowerCase s) = false ->
  exists f,
    submit E this (a :: VStr s :: rest) h
    = Throw (ValidationError f) (h ++ [empty_object])%list
    /\ parameterName f = "wsFunctionName"
    /\ offendingValue f = VStr (toLowerCase s).
Proof.
  intros Hs Hm Hp.
  unfold submit, submit_reqOpts. run. rewrite submit_args_run. cbn zeta.
  rewrite Hm. unfold submit_function. cbn [hd tl].
  unfold lowercase_coerce. rewrite Hs.
  destruct (first_rejection E _ _ (VStr (toLowerCase s))) as [[[k r] x]|] eqn:Hf.
  - eexists. split; [reflexivity|]. split; [reflexivity|]. cbn.
    revert Hf. simpl. destruct (all_chars is_space (toLowerCase s));
      [by intros [= <- <- <-]|].
    rewrite Hp. by intros [= <- <- <-].
  - apply wsFunctionName_checks in Hf as (s' & [= <-] & Hp'). congruence.
Qed.

Lemma submit_rejects_function_name_witness :
  exists f,
    submit sampleEnv sample_client [VStr "get"; VStr "core_fn2"] sample_client_heap
    = Throw (ValidationError f) (sample_client_heap ++ [empty_object])%list
    /\ parameterName f = "wsFunctionName"
    /\ offendingValue f = VStr "core_fn2".
Proof.
  apply (submit_rejects_function_name sampleEnv sample_client (VStr "get")
           "core_fn2"); reflexivity.
Defined.


(** ** The constructor: rejected arguments *)

Section Rejections.
Context (E : Env).
Implicit Types (h : Heap) (l : loc) (v : Value).

Lemma baseUrl_rejection h v :
  baseUrl_accepted E v = false ->
  exists r, first_rejection E h [presence; url; format pattern_trailingSlash] v
            = Some (None, r, v).
Proof.
  intros Hv.
  destruct v as [| | |[q|]|s|l| |]; simpl in Hv |- *; try (eexists; reflexivity).
  - destruct (all_chars is_space s), (url_https E s), (pattern_trailingSlash s);
      simpl in Hv |- *; try discriminate; eexists; reflexivity.
  - destruct (h !! l) as [o|]; [destruct (cls o); try destruct (bool_decide _)|];
      eexists; reflexivity.
Qed.

Lemma token_rejection h v :
  token_accepted v = false ->
  exists r, first_rejection E h [presence; format pattern_token] v
            = Some (None, r, v).
Proof.
  intros Hv.
  destruct v as [| | |[q|]|s|l| |]; simpl in Hv |- *; try (eexists; reflexivity).
  - destruct (all_chars is_space s), (pattern_token s);
      simpl in Hv |- *; try discriminate; eexists; reflexivity.
  - destruct (h !! l) as [o|]; [destruct (cls o); try destruct (bool_decide _)|];
      eexists; reflexivity.
Qed.

End Rejections.

(** X8: a base URL that is missing, not a string, or whose form with the
    trailing slash the URL checks refuse makes the constructor throw a
    validation failure for [moodleBaseUrl], whatever the other arguments. *)
Theorem constructor_rejects_base_url (E : Env) (args : list Value) (h : Heap) :
  baseUrl_accepted E (moodleBaseUrl_coerce (hd VUndefined args)) = false ->
  exists r h',
    MoodleWSClient E args h
    = Throw (ValidationError
               {| parameterName := "moodleBaseUrl"; attribute := None; reason := r;
                  offendingValue := moodleBaseUrl_coerce (hd VUndefined args) |}) h'.
Proof.
  intros Hu. rewrite MoodleWSClient_run. cbn zeta.
  destruct (options_coerce_total E
              (or_default (VRef (S (length h))) (hd VUndefined (tl (tl args))))
              (constructor_heap h)) as (h2 & -> & _).
  destruct (baseUrl_rejection E h2 _ Hu) as [r ->]. eauto.
Qed.

Lemma constructor_rejects_base_url_witness :
  exists r h',
    MoodleWSClient sampleEnv [] []
    = Throw (ValidationError
               {| parameterName := "moodleBaseUrl"; attribute := None; reason := r;
                  offendingValue := VUndefined |}) h'.
Proof.
  apply (constructor_rejects_base_url sampleEnv [] []). reflexivity.
Defined.

(** X9: with an accepted base URL, a token that is missing, not a string, or
    not 32 characters of [a-z0-9] makes the constructor throw a validation
    failure for [token], reporting the token as given. *)
Theorem constructor_rejects_token (E : Env) (args : list Value) (h : Heap) :
  baseUrl_accepted E (moodleBaseUrl_coerce (hd VUndefined args)) = true ->
  token_accepted (hd VUndefined (tl args)) = false ->
  exists r h',
    MoodleWSClient E args h
    = Throw (ValidationError
               {| parameterName := "token"; attribute := None; reason := r;
                  offendingValue := hd VUndefined (tl args) |}) h'.
Proof.
  intros Hu Ht. rewrite MoodleWSClient_run. cbn zeta.
  destruct (options_coerce_total E
              (or_default (VRef (S (length h))) (hd VUndefined (tl (tl args))))
              (constructor_heap h)) as (h2 & -> & _).
  apply (moodleBaseUrl_checks E h2) in Hu. rewrite Hu.
  destruct (token_rejection E h2 _ Ht) as [r ->]. eauto.
Qed.

Lemma constructor_rejects_token_witness :
  exists r h',
    MoodleWSClient sampleEnv [VStr "https://localhost/"; VStr "TOKEN-with-caps"] []
    = Throw (ValidationError
               {| parameterName := "token"; attribute := None; reason := r;
                  offendingValue := VStr "TOKEN-with-caps" |}) h'.
Proof.
  apply (constructor_rejects_token sampleEnv
           [VStr "https://localhost/"; VStr "TOKEN-with-caps"] []); reflexivity.
Defined.

Lemma hex_char_not_space (c : ascii) :
  is_lower c || is_digit c = true -> is_space c = false.
Proof.
  unfold is_lower, is_digit, is_space, between.
  destruct (Nat.leb_spec 97 (code c)), (Nat.leb_spec (code c) 122),
    (Nat.leb_spec 48 (code c)), (Nat.leb_spec (code c) 57),
    (Nat.leb_spec 9 (code c)),
    (Nat.leb_spec (code c) 13), (Nat.eqb_spec (code c) 32),
    (Nat.eqb_spec (code c) 160); simpl; intros; try done; lia.
Qed.

Lemma hex_char_in_pattern (c : ascii) :
  is_hex_lower c = true -> is_lower c || is_digit c = true.
Proof.
  unfold is_hex_lower, is_lower, is_digit, between.
  destruct (Nat.leb_spec 97 (code c)), (Nat.leb_spec (code c) 122),
    (Nat.leb_spec 48 (code c)), (Nat.leb_spec (code c) 57),
    (Nat.leb_spec (code c) 102); simpl; intros; try done; lia.
Qed.

Lemma all_chars_impl (p q : ascii -> bool) (s : string) :
  (forall c, p c = true -> q c = true) ->
  all_chars p s = true -> all_chars q s = true.
Proof.
  intros Hpq. induction s as [|c s IH]; [done|]. simpl. intros Hs.
  apply andb_prop in Hs as [Hc Hs]. by rewrite (Hpq c Hc), IH.
Qed.

Lemma pattern_token_accepted (s : string) :
  pattern_token s = true -> token_accepted (VStr s) = true.
Proof.
  intros Hp. simpl. rewrite Hp, andb_true_r. apply negb_true_iff.
  unfold pattern_token in Hp. apply andb_prop in Hp as [Hlen Hall].
  apply (not_blank _ s hex_char_not_space); [|done].
  intros ->. discriminate.
Qed.

(** X10: every token of the documented form, 32 lower-case hexadecimal
    characters, is accepted: with an accepted base URL the constructor returns
    a client that stores it unchanged. *)
Theorem moodle_token_accepted (E : Env) (h : Heap) (u : Value) (s : string) :
  baseUrl_accepted E (moodleBaseUrl_coerce u) = true ->
  is_moodle_token s = true ->
  exists h',
    MoodleWSClient E [u; VStr s] h = Ok (VRef (length h)) h'
    /\ member h' (VRef (length h)) "_token" = VStr s.
Proof.
  intros Hu Hs.
  assert (Ht : token_accepted (VStr s) = true).
  { apply pattern_token_accepted. unfold is_moodle_token in Hs.
    apply andb_prop in Hs as [Hlen Hall]. unfold pattern_token.
    rewrite Hlen. simpl. by apply (all_chars_impl _ _ s hex_char_in_pattern). }
  eexists. split.
  - by apply MoodleWSClient_default.
  - apply constructed_this. apply lookup_lt_is_Some.
    unfold options_after, after_dataFormat, after_accept. cbn zeta.
    rewrite !write_length, constructor_heap_length. lia.
Qed.

Lemma moodle_token_accepted_witness :
  exists h',
    MoodleWSClient sampleEnv
      [VStr sample_url; VStr "0123456789abcdef0123456789abcdef"] []
    = Ok (VRef 0) h'
    /\ member h' (VRef 0) "_token" = VStr "0123456789abcdef0123456789abcdef".
Proof.
  apply (moodle_token_accepted sampleEnv [] (VStr sample_url)); reflexivity.
Defined.

Lemma ends_with_slash_append (s : string) : ends_with_slash (s +:+ "/") = true.
Proof.
  induction s as [|c s IH]; [reflexivity|].
  simpl. destruct (s +:+ "/") eqn:Hs; [|exact IH].
  destruct s; discriminate.
Qed.

(** X14: the coercion of the base URL is idempotent, and it turns every
    string into a string that ends in a slash. *)
Theorem moodleBaseUrl_coerce_idempotent (v : Value) (s : string) :
  moodleBaseUrl_coerce (moodleBaseUrl_coerce v) = moodleBaseUrl_coerce v
  /\ exists s', moodleBaseUrl_coerce (VStr s) = VStr s'
                /\ ends_with_slash s' = true.
Proof.
  split.
  - destruct v as [| | | |s0| | |]; try reflexivity. simpl.
    destruct (ends_with_slash s0) eqn:Hs; simpl.
    + by rewrite Hs.
    + by rewrite ends_with_slash_append.
  - simpl. destruct (ends_with_slash s) eqn:Hs; simpl.
    + eauto.
    + eexists. split; [reflexivity|]. apply ends_with_slash_append.
Qed.


(** ** The constructor: rejected options *)

Section OptionRejections.
Context (E : Env).
Implicit Types (h : Heap) (l : loc) (v : Value).

Lemma dataFormat_rejection h v :
  dataFormat_accepted v = false ->
  exists r, first_rejection E h
              (presence :: paramToAttrConstraints (vpCons_wsDataFormat E)) v
            = Some (None, r, v).
Proof.
  intros Hv.
  destruct v as [| | |[q|]|s|l| |]; simpl in Hv |- *; try (eexists; reflexivity).
  - destruct (all_chars is_space s), (pattern_wsDataFormat s);
      simpl in Hv |- *; try discriminate; eexists; reflexivity.
  - destruct (h !! l) as [o|]; [destruct (cls o); try destruct (bool_decide _)|];
      eexists; reflexivity.
Qed.

Lemma timeout_rejection h (n : Number) :
  timeout_accepted (VNum n) = false ->
  first_rejection E h
    (presence :: paramToAttrConstraints (vpCons_timeoutMS E)) (VNum n)
  = Some (None, "numericality", VNum n).
Proof.
  destruct n as [q|]; cbn -[isInteger Qle_bool]; [|done].
  by destruct (isInteger (Fin q)), (Qle_bool q 0).
Qed.

Lemma accept_checks h a :
  first_rejection E h [presence; hasTypeof "boolean"] (accept_value E a) = None.
Proof. unfold accept_value. by destruct (isDefined a). Qed.

(** The constructor when the checks of the base URL and of the token pass:
    the outcome is decided by the checks of [options]. *)
Lemma MoodleWSClient_options_decide args h :
  let u := moodleBaseUrl_coerce (hd VUndefined args) in
  let t := hd VUndefined (tl args) in
  let o := or_default (VRef (S (length h))) (hd VUndefined (tl (tl args))) in
  baseUrl_accepted E u = true ->
  token_accepted t = true ->
  exists h2,
    options_coerce E o (constructor_heap h) = Ok o h2
    /\ h2 = match o with
            | VRef l => options_after E l (constructor_heap h)
            | _ => constructor_heap h
            end
    /\ MoodleWSClient E args h =
       match first_rejection E h2 (options_validators E) o with
       | Some (k, r, x) =>
           Throw (ValidationError {| parameterName := "options"; attribute := k;
                                     reason := r; offendingValue := x |}) h2
       | None => Ok (VRef (length h)) (constructed (length h) u t o h2)
       end.
Proof.
  intros u t o Hu Ht.
  destruct (options_coerce_total E o (constructor_heap h)) as (h2 & Hc & _ & Hh).
  exists h2. split; [done|]. split; [done|].
  rewrite MoodleWSClient_run. cbn zeta. fold u t o. rewrite Hc.
  apply (moodleBaseUrl_checks E h2) in Hu. rewrite Hu.
  apply (token_checks E h2) in Ht. by rewrite Ht.
Qed.

End OptionRejections.

(** ** The timeout option, by kind of descriptor *)

Section TimeoutOption.
Context (E : Env).
Implicit Types (h : Heap) (l : loc) (v : Value).

(** The outcome of a construction whose options hold a timeout: decided by
    the check of the value the coercion of [options] makes of it. *)
Lemma timeout_option_outcome h (u t : Value) l (o : Obj) v :
  h !! l = Some o ->
  props o !! "timeout" = Some v ->
  v ≠ VRef l ->
  live h v ->
  baseUrl_accepted E (moodleBaseUrl_coerce u) = true ->
  token_accepted t = true ->
  dataFormat_option_ok E (member h (VRef l) "dataFormat") = true ->
  exists h',
    if timeout_accepted (timeout_value E h v) then
      MoodleWSClient E [u; t; VRef l] h = Ok (VRef (length h)) h'
      /\ member h' (member h' (VRef (length h)) "_options") "timeout"
         = timeout_value E h v
    else
      MoodleWSClient E [u; t; VRef l] h
      = Throw (ValidationError (InvalidDuration (timeout_value E h v))) h'.
Proof.
  intros Ho Hv Hself Hlive Hu Ht Hd.
  assert (Hlt : (l < length h)%nat) by by eapply lookup_lt_Some.
  assert (Hch : constructor_heap h !! l = Some o)
    by by rewrite constructor_heap_caller.
  assert (Hs : is_Some (constructor_heap h !! l)) by by rewrite Hch.
  assert (Hm : forall k, member (constructor_heap h) (VRef l) k = member h (VRef l) k).
  { intros k. unfold member. by rewrite Hch, Ho. }
  assert (Hp : isPlainObject (constructor_heap h) (VRef l) = true).
  { simpl. by rewrite Hch. }
  assert (Hmv : member h (VRef l) "timeout" = v).
  { unfold member. by rewrite Ho, Hv. }
  assert (Hsame : forall l', v = VRef l' ->
             after_dataFormat E l (constructor_heap h) !! l' = h !! l').
  { intros l' ->. rewrite after_dataFormat_other by congruence.
    by apply constructor_heap_caller. }
  assert (Htv : timeout_value E (after_dataFormat E l (constructor_heap h)) v
                = timeout_value E h v).
  { unfold timeout_value.
    by rewrite (isEmpty_same _ _ _ Hsame), (timeoutMS_coerce_same E _ _ _ Hsame). }
  assert (Hdv : dataFormat_accepted
                  (dataFormat_value E (after_accept E l (constructor_heap h))
                     (member (constructor_heap h) (VRef l) "dataFormat")) = true).
  { rewrite Hm. unfold dataFormat_option_ok in Hd.
    apply andb_prop in Hd as [Hprim Hacc]. apply negb_true_iff in Hprim.
    by rewrite dataFormat_value_primitive. }
  destruct (MoodleWSClient_options_decide E [u; t; VRef l] h Hu Ht)
    as (h2 & _ & Hh & Hrun).
  cbn [hd tl or_default] in *. subst h2.
  destruct (timeout_value_number E h v) as [n Hn]. rewrite Hn in Htv |- *.
  exists (if timeout_accepted (VNum n)
          then constructed (length h) (moodleBaseUrl_coerce u) t (VRef l)
                 (options_after E l (constructor_heap h))
          else options_after E l (constructor_heap h)).
  rewrite Hrun, options_checks. cbn [isDefined negb].
  rewrite options_after_plain, Hp. cbn [negb].
  rewrite options_after_accept, options_after_dataFormat, options_after_timeout
    by done.
  rewrite accept_checks.
  apply (dataFormat_checks E (options_after E l (constructor_heap h))) in Hdv.
  rewrite Hdv, Hm, Hmv, Htv.
  destruct (timeout_accepted (VNum n)) eqn:Hacc.
  - apply (timeout_checks E (options_after E l (constructor_heap h))) in Hacc.
    rewrite Hacc. split; [reflexivity|].
    assert (Hsome : is_Some (options_after E l (constructor_heap h) !! length h)).
    { apply lookup_lt_is_Some.
      unfold options_after, after_dataFormat, after_accept. cbn zeta.
      rewrite !write_length, constructor_heap_length. lia. }
    destruct (constructed_this (length h) (moodleBaseUrl_coerce u) t (VRef l)
                _ Hsome) as (_ & _ & ->).
    rewrite constructed_member by lia.
    rewrite options_after_timeout by done.
    by rewrite Hm, Hmv, Htv.
  - by rewrite timeout_rejection.
Qed.

(** What the coercion of [timeoutMS] makes of a descriptor, read off its
    branches: a descriptor that resolves to a positive count yields that
    count; one that resolves to zero or less yields it too when it is a
    count or a duration, and is handed to [c.toNumber] when it was parsed. *)
Lemma timeoutMS_coerce_positive h v (n : Z) :
  (forall m, c_toNumber E (VNum m) = m) ->
  is_descriptor v = true ->
  (0 < n)%Z ->
  descriptor_ms E h v = Fin (inject_Z n) ->
  timeoutMS_coerce E h v = Fin (inject_Z n).
Proof.
  intros Hnum Hk Hn Hres. unfold timeoutMS_coerce.
  destruct v as [| | |m|s|l'| |]; try discriminate; cbn [descriptor_ms] in Hres.
  - cbn [isDuration isObject isString orb]. by rewrite Hnum.
  - cbn [isDuration isObject isString orb] in Hres |- *. rewrite Hres.
    cbn [gt0 inject_Z Qnum]. by apply Z.ltb_lt in Hn as ->.
  - destruct (isDuration h (VRef l')); [done|].
    cbn [isObject isString orb]. rewrite Hres.
    cbn [gt0 inject_Z Qnum]. by apply Z.ltb_lt in Hn as ->.
Qed.

Lemma gt0_nonpositive (q : Q) : Qle_bool q 0 = true -> gt0 (Fin q) = false.
Proof.
  unfold Qle_bool, gt0. cbn [Qnum Qden]. intros Hq.
  apply Z.leb_le in Hq. apply Z.ltb_ge. lia.
Qed.

Lemma timeoutMS_coerce_nonpositive h v (q : Q) :
  (forall m, c_toNumber E (VNum m) = m) ->
  is_descriptor v = true ->
  Qle_bool q 0 = true ->
  descriptor_ms E h v = Fin q ->
  timeoutMS_coerce E h v
  = if parsed_descriptor h v then c_toNumber E v else Fin q.
Proof.
  intros Hnum Hk Hq Hres. unfold timeoutMS_coerce, parsed_descriptor.
  destruct v as [| | |m|s|l'| |]; try discriminate; cbn [descriptor_ms] in Hres.
  - cbn [isDuration isObject isString orb andb]. by rewrite Hnum.
  - cbn [isDuration isObject isString orb andb negb] in Hres |- *. rewrite Hres.
    by rewrite gt0_nonpositive.
  - destruct (isDuration h (VRef l')); [done|].
    cbn [isObject isString orb andb negb]. rewrite Hres.
    by rewrite gt0_nonpositive.
Qed.

End TimeoutOption.

(** C5: the timeout option, for a duration descriptor [v] (a count of
    milliseconds, a duration object, a string or another object) held by the
    caller's options object, the other arguments accepted and [c.toNumber]
    leaving a number as it is.  An empty descriptor (an object without
    properties, a blank string) is not resolved: the constructor returns a
    client whose stored timeout is the default 5000.  A descriptor that is
    not empty and resolves to a positive whole number of milliseconds makes
    the constructor return a client whose stored timeout is that number.  A
    descriptor that is not empty and resolves to zero or less makes the
    constructor throw the failure of the timeout check when it is a count or
    a duration object; when it is a string or another object it is handed to
    [c.toNumber], and the constructor throws that failure unless the result
    is a positive whole number, which is then the stored timeout. *)
Theorem timeout_descriptor (E : Env) (h : Heap) (u t : Value) (l : loc)
    (o : Obj) (v : Value) :
  h !! l = Some o ->
  props o !! "timeout" = Some v ->
  v ≠ VRef l ->
  live h v ->
  is_descriptor v = true ->
  (forall n, c_toNumber E (VNum n) = n) ->
  baseUrl_accepted E (moodleBaseUrl_coerce u) = true ->
  token_accepted t = true ->
  dataFormat_option_ok E (member h (VRef l) "dataFormat") = true ->
  let stores x :=
    exists h',
      MoodleWSClient E [u; t; VRef l] h = Ok (VRef (length h)) h'
      /\ member h' (member h' (VRef (length h)) "_options") "timeout" = x in
  let fails x :=
    exists h',
      MoodleWSClient E [u; t; VRef l] h
      = Throw (ValidationError (InvalidDuration x)) h' in
  (isEmpty h v = true -> stores (int 5000))
  /\ (isEmpty h v = false ->
      forall n : Z,
        (0 < n)%Z -> descriptor_ms E h v = Fin (inject_Z n) -> stores (int n))
  /\ (isEmpty h v = false ->
      forall q : Q,
        Qle_bool q 0 = true -> descriptor_ms E h v = Fin q ->
        if parsed_descriptor h v then
          if timeout_accepted (VNum (c_toNumber E v))
          then stores (VNum (c_toNumber E v))
          else fails (VNum (c_toNumber E v))
        else fails (VNum (Fin q))).
Proof.
  intros Ho Hv Hself Hlive Hk Hnum Hu Ht Hd stores fails.
  destruct (timeout_option_outcome E h u t l o v Ho Hv Hself Hlive Hu Ht Hd)
    as [h' Hout].
  unfold timeout_value in Hout.
  split; [|split].
  - intros He. rewrite He in Hout. cbn [negb] in Hout.
    by exists h'.
  - intros He n Hn Hres. rewrite He in Hout. cbn [negb] in Hout.
    rewrite (timeoutMS_coerce_positive E h v n Hnum Hk Hn Hres) in Hout.
    rewrite (positive_count_accepted n Hn) in Hout. by exists h'.
  - intros He q Hq Hres. rewrite He in Hout. cbn [negb] in Hout.
    rewrite (timeoutMS_coerce_nonpositive E h v q Hnum Hk Hq Hres) in Hout.
    destruct (parsed_descriptor h v).
    + destruct (timeout_accepted (VNum (c_toNumber E v))); by exists h'.
    + replace (timeout_accepted (VNum (Fin q))) with false in Hout.
      * by exists h'.
      * cbn [timeout_accepted]. by rewrite Hq, andb_false_r.
Qed.

Lemma timeout_descriptor_witness :
  (exists h',
      MoodleWSClient sampleEnv [VStr sample_url; VStr sample_token; VRef 1]
        sample_fields_heap = Ok (VRef 2) h'
      /\ member h' (member h' (VRef 2) "_options") "timeout" = int 250)
  /\ (exists h',
      MoodleWSClient sampleEnv [VStr sample_url; VStr sample_token; VRef 1]
        sample_duration_heap = Ok (VRef 2) h'
      /\ member h' (member h' (VRef 2) "_options") "timeout" = int 30000)
  /\ (exists h',
      MoodleWSClient sampleEnv [VStr sample_url; VStr sample_token; VRef 0]
        [sample_options] = Ok (VRef 1) h'
      /\ member h' (member h' (VRef 1) "_options") "timeout" = int 10000)
  /\ (exists h',
      MoodleWSClient sampleEnv [VStr sample_url; VStr sample_token; VRef 0]
        [sample_options_zero]
      = Throw (ValidationError (InvalidDuration (int 0))) h')
  /\ (exists h',
      MoodleWSClient sampleEnv [VStr sample_url; VStr sample_token; VRef 1]
        sample_zero_fields_heap
      = Throw (ValidationError (InvalidDuration (VNum NaN))) h').
Proof.
  refine (conj _ (conj _ (conj _ (conj _ _)))).
  - apply (proj1 (proj2
      (timeout_descriptor sampleEnv sample_fields_heap
         (VStr sample_url) (VStr sample_token) 1
         {| cls := Plain; props := <["timeout" := VRef 0]> ∅ |} (VRef 0)
         eq_refl eq_refl ltac:(discriminate) ltac:(simpl; lia) eq_refl
         (fun n => eq_refl) eq_refl eq_refl eq_refl)) eq_refl 250%Z);
      [lia | reflexivity].
  - apply (proj1 (proj2
      (timeout_descriptor sampleEnv sample_duration_heap
         (VStr sample_url) (VStr sample_token) 1
         {| cls := Plain; props := <["timeout" := VRef 0]> ∅ |} (VRef 0)
         eq_refl eq_refl ltac:(discriminate) ltac:(simpl; lia) eq_refl
         (fun n => eq_refl) eq_refl eq_refl eq_refl)) eq_refl 30000%Z);
      [lia | reflexivity].
  - apply (proj1 (proj2
      (timeout_descriptor sampleEnv [sample_options]
         (VStr sample_url) (VStr sample_token) 0 sample_options (int 10000)
         eq_refl eq_refl ltac:(discriminate) I eq_refl
         (fun n => eq_refl) eq_refl eq_refl eq_refl)) eq_refl 10000%Z);
      [lia | reflexivity].
  - apply (proj2 (proj2
      (timeout_descriptor sampleEnv [sample_options_zero]
         (VStr sample_url) (VStr sample_token) 0 sample_options_zero (int 0)
         eq_refl eq_refl ltac:(discriminate) I eq_refl
         (fun n => eq_refl) eq_refl eq_refl eq_refl)) eq_refl (inject_Z 0)
      eq_refl eq_refl).
  - apply (proj2 (proj2
      (timeout_descriptor sampleEnv sample_zero_fields_heap
         (VStr sample_url) (VStr sample_token) 1
         {| cls := Plain; props := <["timeout" := VRef 0]> ∅ |} (VRef 0)
         eq_refl eq_refl ltac:(discriminate) ltac:(simpl; lia) eq_refl
         (fun n => eq_refl) eq_refl eq_refl eq_refl)) eq_refl (inject_Z 0)
      eq_refl eq_refl).
Defined.

(** C5 as the claim states it fails on empty descriptors: the options
    [{timeout: {}}] and [{timeout: " "}] hold descriptors that resolve to
    zero milliseconds, yet the constructor returns a client, whose stored
    timeout is 5000. *)
Lemma empty_descriptor_defaults :
  let o := MoodleWSClient sampleEnv [VStr sample_url; VStr sample_token; VRef 1]
             sample_empty_heap in
  let b := MoodleWSClient sampleEnv [VStr sample_url; VStr sample_token; VRef 0]
             [sample_options_blank] in
  is_descriptor (VRef 0) = true
  /\ descriptor_ms sampleEnv sample_empty_heap (VRef 0) = Fin 0
  /\ o = Ok (VRef 2) (heap_of o)
  /\ member (heap_of o) (member (heap_of o) (VRef 2) "_options") "timeout" = int 5000
  /\ descriptor_ms sampleEnv [sample_options_blank] (VStr " ") = Fin 0
  /\ b = Ok (VRef 1) (heap_of b)
  /\ member (heap_of b) (member (heap_of b) (VRef 1) "_options") "timeout" = int 5000.
Proof. vm_compute. repeat split. Qed.

(** X13: with an accepted base URL and token, an [options] argument that is
    defined and is not an object (a string, a number, a boolean, a function)
    makes the constructor throw the [dictionary] failure for [options]. *)
Theorem constructor_rejects_options (E : Env) (u t o : Value)
    (rest : list Value) (h : Heap) :
  baseUrl_accepted E (moodleBaseUrl_coerce u) = true ->
  token_accepted t = true ->
  isDefined o = true ->
  isPlainObject (constructor_heap h) o = false ->
  exists h',
    MoodleWSClient E (u :: t :: o :: rest) h
    = Throw (ValidationError
               {| parameterName := "options"; attribute := None;
                  reason := "dictionary"; offendingValue := o |}) h'.
Proof.
  intros Hu Ht Hd Hp.
  destruct (MoodleWSClient_options_decide E (u :: t :: o :: rest) h Hu Ht)
    as (h2 & _ & Hh & ->).
  cbn [hd tl] in *.
  assert (Ho : or_default (VRef (S (length h))) o = o) by by destruct o.
  rewrite Ho in Hh |- *.
  assert (Hp2 : isPlainObject h2 o = false).
  { subst h2. destruct o; try done. by rewrite options_after_plain. }
  rewrite options_checks, Hd, Hp2. cbn [negb]. eauto.
Qed.

Lemma constructor_rejects_options_witness :
  exists h',
    MoodleWSClient sampleEnv [VStr sample_url; VStr sample_token; VStr "json"] []
    = Throw (ValidationError
               {| parameterName := "options"; attribute := None;
                  reason := "dictionary"; offendingValue := VStr "json" |}) h'.
Proof.
  apply (constructor_rejects_options sampleEnv (VStr sample_url)
           (VStr sample_token) (VStr "json") [] []); reflexivity.
Defined.

(** A client and a duration object pass the dictionary check of [options]:
    the constructor returns and has written the three option keys to them. *)
Example instance_as_options :
  let o := MoodleWSClient sampleEnv [VStr sample_url; VStr sample_token; VRef 0]
             sample_client_heap in
  let d := MoodleWSClient sampleEnv [VStr sample_url; VStr sample_token; VRef 0]
             sample_duration_heap in
  o = Ok (VRef 2) (heap_of o)
  /\ member (heap_of o) (VRef 2) "_options" = sample_client
  /\ member (heap_of o) sample_client "timeout" = int 5000
  /\ d = Ok (VRef 2) (heap_of d)
  /\ member (heap_of d) (VRef 0) "dataFormat" = VStr "json".
Proof. vm_compute. repeat split. Qed.

(** X11: a [dataFormat] option given as a string that is not blank is
    stored in lower case when its lower-case form is json or xml, and
    otherwise makes the constructor throw a validation failure for the key
    [dataFormat] of [options] (other arguments accepted, no timeout given). *)
Theorem dataFormat_option (E : Env) (h : Heap) (u t : Value) (l : loc)
    (o : Obj) (d : string) :
  h !! l = Some o ->
  cls o = Plain ->
  props o !! "dataFormat" = Some (VStr d) ->
  props o !! "timeout" = None ->
  all_chars is_space d = false ->
  c_toString E (VStr d) = VStr d ->
  baseUrl_accepted E (moodleBaseUrl_coerce u) = true ->
  token_accepted t = true ->
  exists h',
    if pattern_wsDataFormat (toLowerCase d) then
      MoodleWSClient E [u; t; VRef l] h = Ok (VRef (length h)) h'
      /\ member h' (VRef l) "dataFormat" = VStr (toLowerCase d)
    else
      exists r,
        MoodleWSClient E [u; t; VRef l] h
        = Throw (ValidationError
                   {| parameterName := "options"; attribute := Some "dataFormat";
                      reason := r; offendingValue := VStr (toLowerCase d) |}) h'.
Proof.
  intros Ho Hcls Hd Hto Hb Hstr Hu Ht.
  assert (Hlt : (l < length h)%nat) by by eapply lookup_lt_Some.
  assert (Hch : constructor_heap h !! l = Some o)
    by by rewrite constructor_heap_caller.
  assert (Hs : is_Some (constructor_heap h !! l)) by by rewrite Hch.
  assert (Hp : isPlainObject (constructor_heap h) (VRef l) = true).
  { simpl. by rewrite Hch. }
  assert (Hmd : member (constructor_heap h) (VRef l) "dataFormat" = VStr d).
  { unfold member. by rewrite Hch, Hd. }
  assert (Hmt : member (constructor_heap h) (VRef l) "timeout" = VUndefined).
  { unfold member. by rewrite Hch, Hto, Hcls. }
  assert (Hdv : dataFormat_value E (after_accept E l (constructor_heap h)) (VStr d)
                = VStr (toLowerCase d)).
  { unfold dataFormat_value. cbn [isEmpty]. rewrite Hb. cbn [negb].
    unfold lowercase_coerce. by rewrite Hstr. }
  destruct (MoodleWSClient_options_decide E [u; t; VRef l] h Hu Ht)
    as (h2 & _ & Hh & Hrun).
  cbn [hd tl or_default] in *. subst h2.
  exists (if pattern_wsDataFormat (toLowerCase d)
          then constructed (length h) (moodleBaseUrl_coerce u) t (VRef l)
                 (options_after E l (constructor_heap h))
          else options_after E l (constructor_heap h)).
  rewrite Hrun, options_checks. cbn [isDefined negb].
  rewrite options_after_plain, Hp. cbn [negb].
  rewrite options_after_accept, options_after_dataFormat, options_after_timeout
    by done.
  rewrite accept_checks, Hmd, Hmt, Hdv.
  destruct (pattern_wsDataFormat (toLowerCase d)) eqn:Hpat.
  - assert (Hacc : dataFormat_accepted (VStr (toLowerCase d)) = true).
    { simpl. rewrite Hpat, andb_true_r. apply negb_true_iff.
      unfold pattern_wsDataFormat in Hpat.
      destruct (String.eqb_spec (toLowerCase d) "json") as [->|_]; [done|].
      destruct (String.eqb_spec (toLowerCase d) "xml") as [->|_]; done. }
    apply (dataFormat_checks E (options_after E l (constructor_heap h))) in Hacc.
    rewrite Hacc.
    replace (first_rejection E (options_after E l (constructor_heap h))
               (presence :: paramToAttrConstraints (vpCons_timeoutMS E))
               (timeout_value E (after_dataFormat E l (constructor_heap h)) VUndefined))
      with (@None Rejection) by reflexivity.
    split; [reflexivity|].
    rewrite constructed_member by lia.
    by rewrite options_after_dataFormat, Hmd, Hdv.
  - assert (Hrej : dataFormat_accepted (VStr (toLowerCase d)) = false).
    { simpl. by rewrite Hpat, andb_false_r. }
    destruct (dataFormat_rejection E (options_after E l (constructor_heap h)) _ Hrej)
      as [r ->].
    by exists r.
Qed.

Lemma dataFormat_option_witness :
  exists h',
    MoodleWSClient sampleEnv [VStr sample_url; VStr sample_token; VRef 0]
      [sample_format_options] = Ok (VRef 1) h'
    /\ member h' (VRef 0) "dataFormat" = VStr "xml".
Proof.
  destruct (dataFormat_option sampleEnv [sample_format_options]
              (VStr sample_url) (VStr sample_token) 0 sample_format_options "XML")
    as [h' H]; try reflexivity.
  exists h'. exact H.
Defined.

(** X12: a timeout option that resolves to anything but a positive whole
    number (a fraction and NaN included) makes the constructor throw the
    failure of the timeout check (other arguments accepted). *)
Theorem timeout_not_accepted (E : Env) (h : Heap) (u t : Value) (l : loc)
    (o : Obj) (v : Value) :
  h !! l = Some o ->
  cls o = Plain ->
  props o !! "timeout" = Some v ->
  v <> VRef l ->
  live h v ->
  isEmpty h v = false ->
  baseUrl_accepted E (moodleBaseUrl_coerce u) = true ->
  token_accepted t = true ->
  dataFormat_option_ok E (member h (VRef l) "dataFormat") = true ->
  timeout_accepted (VNum (timeoutMS_coerce E h v)) = false ->
  exists h',
    MoodleWSClient E [u; t; VRef l] h
    = Throw (ValidationError (InvalidDuration (VNum (timeoutMS_coerce E h v)))) h'.
Proof.
  intros Ho Hcls Hv Hself Hlive Hne Hu Ht Hd Hrej.
  assert (Hlt : (l < length h)%nat) by by eapply lookup_lt_Some.
  assert (Hch : constructor_heap h !! l = Some o)
    by by rewrite constructor_heap_caller.
  assert (Hs : is_Some (constructor_heap h !! l)) by by rewrite Hch.
  assert (Hm : forall k, member (constructor_heap h) (VRef l) k = member h (VRef l) k).
  { intros k. unfold member. by rewrite Hch, Ho. }
  assert (Hp : isPlainObject (constructor_heap h) (VRef l) = true).
  { simpl. by rewrite Hch. }
  assert (Hmv : member h (VRef l) "timeout" = v).
  { unfold member. by rewrite Ho, Hv. }
  assert (Hsame : forall l', v = VRef l' ->
             after_dataFormat E l (constructor_heap h) !! l' = h !! l').
  { intros l' ->. rewrite after_dataFormat_other by congruence.
    by apply constructor_heap_caller. }
  assert (Htv : timeout_value E (after_dataFormat E l (constructor_heap h)) v
                = VNum (timeoutMS_coerce E h v)).
  { unfold timeout_value.
    by rewrite (isEmpty_same _ _ _ Hsame), Hne, (timeoutMS_coerce_same E _ _ _ Hsame). }
  assert (Hdv : dataFormat_accepted
                  (dataFormat_value E (after_accept E l (constructor_heap h))
                     (member (constructor_heap h) (VRef l) "dataFormat")) = true).
  { rewrite Hm. unfold dataFormat_option_ok in Hd.
    apply andb_prop in Hd as [Hprim Hacc]. apply negb_true_iff in Hprim.
    by rewrite dataFormat_value_primitive. }
  destruct (MoodleWSClient_options_decide E [u; t; VRef l] h Hu Ht)
    as (h2 & _ & Hh & Hrun).
  cbn [hd tl or_default] in *. subst h2.
  eexists. rewrite Hrun, options_checks. cbn [isDefined negb].
  rewrite options_after_plain, Hp. cbn [negb].
  rewrite options_after_accept, options_after_dataFormat, options_after_timeout
    by done.
  rewrite accept_checks.
  apply (dataFormat_checks E (options_after E l (constructor_heap h))) in Hdv.
  rewrite Hdv, Hm, Hmv, Htv.
  by rewrite timeout_rejection.
Qed.

Lemma timeout_not_accepted_witness :
  exists h',
    MoodleWSClient sampleEnv [VStr sample_url; VStr sample_token; VRef 0]
      [sample_options_fraction]
    = Throw (ValidationError (InvalidDuration (VNum (Fin (3 # 2))))) h'.
Proof.
  apply (timeout_not_accepted sampleEnv [sample_options_fraction]
           (VStr sample_url) (VStr sample_token) 0 sample_options_fraction
           (VNum (Fin (3 # 2)))); try reflexivity; try discriminate.
Defined.


(** ** Constructed clients *)

Section Constructed.
Context (E : Env).
Implicit Types (h : Heap) (l : loc) (v : Value).

Lemma member_app h (e : Heap) l k :
  (l < length h)%nat -> member (h ++ e)%list (VRef l) k = member h (VRef l) k.
Proof. intros Hl. unfold member. by rewrite lookup_app_l. Qed.

Lemma isPlainObject_constructed this u t o h v :
  isPlainObject (constructed this u t o h) v = isPlainObject h v.
Proof. unfold constructed. by rewrite !isPlainObject_write. Qed.

Lemma constructed_length this u t o h :
  length (constructed this u t o h) = length h.
Proof. unfold constructed. by rewrite !write_length. Qed.

Lemma options_after_length l h : length (options_after E l h) = length h.
Proof.
  unfold options_after, after_dataFormat, after_accept. cbn zeta.
  by rewrite !write_length.
Qed.

(** The instance keeps the methods of its class: the constructor assigns
    three fields and none of them has the name of a method. *)
Lemma options_after_member_key l h k :
  k <> "acceptUntrustedTLSCert" -> k <> "dataFormat" -> k <> "timeout" ->
  member (options_after E l h) (VRef l) k = member h (VRef l) k.
Proof.
  intros H1 H2 H3. unfold options_after, after_dataFormat, after_accept.
  cbn zeta. by rewrite !member_write_key by (done || congruence).
Qed.

Lemma options_after_member_other l l' h k :
  l <> l' -> member (options_after E l h) (VRef l') k = member h (VRef l') k.
Proof. intros Hne. unfold member. by rewrite options_after_other. Qed.

(** Everything a returned client satisfies. *)
Lemma constructed_client_facts args h c h' :
  MoodleWSClient E args h = Ok c h' ->
  c = VRef (length h)
  /\ length h' = S (S (length h))
  /\ (exists s, member h' c "_moodleUrl" = VStr s
                /\ ends_with_slash s = true /\ url_https E s = true)
  /\ (exists t, member h' c "_token" = VStr t /\ pattern_token t = true)
  /\ (forall k, k <> "_moodleUrl" -> k <> "_token" -> k <> "_options" ->
        k <> "acceptUntrustedTLSCert" -> k <> "dataFormat" -> k <> "timeout" ->
        member h' c k = inherited Instance k)
  /\ (forall l, member h' c "_options" = VRef l ->
        (l < length h')%nat
        /\ is_Some (h' !! l)
        /\ isPlainObject h' (VRef l) = true
        /\ (exists b, member h' (VRef l) "acceptUntrustedTLSCert" = VBool b)
        /\ dataFormat_accepted (member h' (VRef l) "dataFormat") = true
        /\ timeout_accepted (member h' (VRef l) "timeout") = true).
Proof.
  intros Hok. pose proof Hok as Hok'.
  apply MoodleWSClient_inv in Hok as (h2 & Hc & Hu & Ht & _ & -> & ->).
  destruct (options_coerce_total E
              (or_default (VRef (S (length h))) (hd VUndefined (tl (tl args))))
              (constructor_heap h)) as (h3 & Hc' & Hlen & Hh3).
  rewrite Hc' in Hc. injection Hc as <-.
  assert (Hthis : is_Some (h3 !! length h)).
  { apply lookup_lt_is_Some. rewrite Hlen, constructor_heap_length. lia. }
  assert (Hinst : forall k,
            k <> "acceptUntrustedTLSCert" -> k <> "dataFormat" -> k <> "timeout" ->
            member h3 (VRef (length h)) k = inherited Instance k).
  { intros k H1 H2 H3.
    assert (Hch : member (constructor_heap h) (VRef (length h)) k
                  = inherited Instance k).
    { unfold member. by rewrite constructor_heap_this. }
    rewrite Hh3. destruct (or_default _ _) as [| | | | |l| |]; try exact Hch.
    destruct (decide (l = length h)) as [->|Hne].
    - by rewrite options_after_member_key.
    - by rewrite options_after_member_other. }
  destruct (constructed_this (length h)
              (moodleBaseUrl_coerce (hd VUndefined args)) (hd VUndefined (tl args))
              (or_default (VRef (S (length h))) (hd VUndefined (tl (tl args)))) h3)
    as (Hmu & Hmt & Hmo); [exact Hthis|].
  split; [done|]. split.
  { by rewrite constructed_length, Hlen, constructor_heap_length. }
  split.
  { rewrite Hmu.
    destruct (moodleBaseUrl_coerce (hd VUndefined args)) as [| | | |s| | |];
      try discriminate.
    exists s. split; [done|]. simpl in Hu.
    apply andb_prop in Hu as [Hu Hsl]. apply andb_prop in Hu as [_ Hurl].
    unfold pattern_trailingSlash in Hsl. apply andb_prop in Hsl as [Hsl _].
    done. }
  split.
  { rewrite Hmt. destruct (hd VUndefined (tl args)) as [| | | |t| | |];
      try discriminate.
    exists t. split; [done|]. simpl in Ht. by apply andb_prop in Ht as [_ Ht]. }
  split.
  { intros k H1 H2 H3 H4 H5 H6.
    rewrite constructed_member_key by done. by apply Hinst. }
  intros l Hl. rewrite Hmo in Hl.
  destruct (MoodleWSClient_options E args h _ _ l Hok' Hl)
    as (_ & _ & Hp & Hs & _ & Hrd & Hd & Hto).
  rewrite Hl in Hh3, Hrd |- *. subst h3.
  assert (Hlt : (l < length (constructed (length h)
                               (moodleBaseUrl_coerce (hd VUndefined args))
                               (hd VUndefined (tl args)) (VRef l)
                               (options_after E l (constructor_heap h))))%nat).
  { rewrite constructed_length, options_after_length.
    by apply lookup_lt_is_Some. }
  split; [done|].
  split; [by apply lookup_lt_is_Some|]. split.
  { by rewrite isPlainObject_constructed, options_after_plain. }
  rewrite !Hrd by done. split; [|done].
  rewrite options_after_accept by done. unfold accept_value.
  destruct (isDefined _); eauto.
Qed.

End Constructed.

(** X16: every client the constructor returns stores a base URL that is a
    string ending in a slash and accepted by the URL check, a token of 32
    characters of [a-z0-9], and, when its options are an object, an object
    of the store (one the dictionary check accepts) whose
    [acceptUntrustedTLSCert] is a boolean, whose [dataFormat] is json or xml
    and whose [timeout] is a positive whole number. *)
Theorem constructed_client_invariant (E : Env) (args : list Value) (h : Heap)
    (c : Value) (h' : Heap) :
  MoodleWSClient E args h = Ok c h' ->
  (exists s, member h' c "_moodleUrl" = VStr s
             /\ ends_with_slash s = true /\ url_https E s = true)
  /\ (exists t, member h' c "_token" = VStr t
                /\ String.length t = 32%nat
                /\ all_chars (fun c => is_lower c || is_digit c) t = true)
  /\ (forall l, member h' c "_options" = VRef l ->
        isPlainObject h' (VRef l) = true
        /\ (exists b, member h' (VRef l) "acceptUntrustedTLSCert" = VBool b)
        /\ (member h' (VRef l) "dataFormat" = VStr "json"
            \/ member h' (VRef l) "dataFormat" = VStr "xml")
        /\ (exists q, member h' (VRef l) "timeout" = VNum (Fin q)
                      /\ isInteger (Fin q) = true /\ (0 < q)%Q)).
Proof.
  intros Hok.
  destruct (constructed_client_facts E args h c h' Hok)
    as (_ & _ & Hu & (t & Ht & Hp) & _ & Ho).
  split; [done|]. split.
  { exists t. split; [done|]. unfold pattern_token in Hp.
    apply andb_prop in Hp as [Hlen Hall]. split; [|done].
    by apply Nat.eqb_eq. }
  intros l Hl. destruct (Ho l Hl) as (_ & _ & Hpl & Hb & Hd & Hto).
  split; [done|]. split; [done|]. split.
  - revert Hd. destruct (member h' (VRef l) "dataFormat") as [| | | |s| | |];
      try discriminate.
    intros Hd. cbn [dataFormat_accepted] in Hd.
    apply andb_prop in Hd as [_ Hd]. unfold pattern_wsDataFormat in Hd.
    apply orb_prop in Hd as [Hd|Hd]; apply String.eqb_eq in Hd; subst s; auto.
  - revert Hto. destruct (member h' (VRef l) "timeout") as [| | |[q|]| | | |];
      try discriminate.
    intros Hto. exists q. split; [done|]. cbn -[isInteger Qle_bool] in Hto.
    apply andb_prop in Hto as [Hi Hq]. split; [done|].
    apply negb_true_iff in Hq. apply Qnot_le_lt. intros Hle.
    apply Qle_bool_iff in Hle. congruence.
Qed.

Lemma constructed_client_invariant_witness :
  exists s, member sample_client_heap sample_client "_moodleUrl" = VStr s
            /\ ends_with_slash s = true /\ url_https sampleEnv s = true.
Proof.
  apply (constructed_client_invariant sampleEnv
           [VStr sample_url; VStr sample_token] [] sample_client sample_client_heap).
  vm_compute. reflexivity.
Defined.

(** X15: for a client fresh from the constructor, every request object that
    [submit] builds has the method [apiUrl] itself as its [uri], one of GET,
    POST and PUT as its method, the negation of the stored
    [acceptUntrustedTLSCert] as [strictSSL] and the stored timeout, a positive
    whole number, as [timeout]. *)
Theorem request_of_constructed_client (E : Env) (args : list Value) (h : Heap)
    (c : Value) (h1 : Heap) (arguments : list Value) (r : ReqOpts) (h2 : Heap) :
  MoodleWSClient E args h = Ok c h1 ->
  submit_reqOpts E c arguments h1 = Ok r h2 ->
  uri r = VMethod M_apiUrl
  /\ (method r = VStr "GET" \/ method r = VStr "POST" \/ method r = VStr "PUT")
  /\ (forall l, member h1 c "_options" = VRef l ->
        (exists b, member h1 (VRef l) "acceptUntrustedTLSCert" = VBool b
                   /\ strictSSL r = negb b)
        /\ timeout r = member h1 (VRef l) "timeout"
        /\ timeout_accepted (timeout r) = true).
Proof.
  intros Hok Hr.
  destruct (constructed_client_facts E args h c h1 Hok)
    as (-> & Hlen & _ & _ & Hmeth & Ho).
  apply submit_reqOpts_inv in Hr as (bag & Ha & -> & ->). cbn [uri method strictSSL timeout].
  assert (Hc : forall k, member (h1 ++ [empty_object])%list (VRef (length h)) k
                         = member h1 (VRef (length h)) k).
  { intros k. apply member_app. lia. }
  split.
  { rewrite Hc, Hmeth by done. reflexivity. }
  split.
  { rewrite submit_args_run in Ha. cbn zeta in Ha.
    destruct (first_rejection E _ _ (submit_method E _ arguments))
      as [[[? ?] ?]|] eqn:Hm; [discriminate|].
    destruct (first_rejection E _ _ (submit_function E arguments))
      as [[[? ?] ?]|]; [discriminate|].
    destruct (first_rejection E _ [dictionary []] _) as [[[? ?] ?]|]; [discriminate|].
    injection Ha as <-.
    apply httpMethod_checks in Hm.
    destruct (submit_bag (submit_method E (h1 ++ [empty_object])%list arguments)
                (submit_function E arguments) (hd VUndefined (tl (tl arguments)))
                (or_default (VRef (length h1))
                   (hd VUndefined (tl (tl (tl arguments)))))) as (-> & _).
    exact Hm. }
  intros l Hl. destruct (Ho l Hl) as (Hlt & _ & _ & (b & Hb) & _ & Hto).
  rewrite !Hc, Hl, !member_app by done.
  split; [|split; [done|exact Hto]].
  exists b. split; [done|]. by rewrite Hb.
Qed.

Lemma request_of_constructed_client_witness :
  uri (request_of plain_call) = VMethod M_apiUrl
  /\ (method (request_of plain_call) = VStr "GET"
      \/ method (request_of plain_call) = VStr "POST"
      \/ method (request_of plain_call) = VStr "PUT").
Proof.
  destruct (request_of_constructed_client sampleEnv
              [VStr sample_url; VStr sample_token] [] sample_client
              sample_client_heap plain_call
              (value_or no_request
                 (submit_reqOpts sampleEnv sample_client plain_call sample_client_heap))
              (sample_client_heap ++ [empty_object])%list)
    as (Hu & Hm & _); [vm_compute; reflexivity | vm_compute; reflexivity |].
  split; [exact Hu | exact Hm].
Defined.

(** X18: two clients constructed without an options argument never share
    their options: each gets the object of its own literal default, and the
    second construction leaves the first client and every earlier object
    unchanged. *)
Theorem clients_do_not_share_default_options (E : Env) (a1 a2 : list Value)
    (h : Heap) (c1 : Value) (h1 : Heap) (c2 : Value) (h2 : Heap) :
  hd VUndefined (tl (tl a1)) = VUndefined ->
  hd VUndefined (tl (tl a2)) = VUndefined ->
  MoodleWSClient E a1 h = Ok c1 h1 ->
  MoodleWSClient E a2 h1 = Ok c2 h2 ->
  c1 <> c2
  /\ member h2 c1 "_options" = VRef (S (length h))
  /\ member h2 c2 "_options" = VRef (S (length h1))
  /\ member h2 c1 "_options" <> member h2 c2 "_options"
  /\ (forall l, (l < length h1)%nat -> h2 !! l = h1 !! l).
Proof.
  intros Hn1 Hn2 Hok1 Hok2.
  destruct (MoodleWSClient_options E a1 h c1 h1 (S (length h)) Hok1)
    as (-> & Hh1 & _ & _ & Ho1 & _); [by rewrite Hn1|].
  destruct (MoodleWSClient_options E a2 h1 c2 h2 (S (length h1)) Hok2)
    as (-> & Hh2 & _ & _ & Ho2 & _); [by rewrite Hn2|].
  assert (Hlen : length h1 = S (S (length h))).
  { rewrite Hh1, constructed_length, options_after_length.
    apply constructor_heap_length. }
  assert (Hframe : forall l, (l < length h1)%nat -> h2 !! l = h1 !! l).
  { intros l Hl. rewrite Hh2.
    rewrite constructed_other by lia.
    rewrite options_after_other by lia.
    by apply constructor_heap_caller. }
  assert (Ho1' : member h2 (VRef (length h)) "_options" = VRef (S (length h))).
  { rewrite <- Ho1. unfold member. rewrite Hframe by lia. done. }
  split; [intros [= Heq]; lia|].
  split; [done|]. split; [done|]. split; [|done].
  rewrite Ho1', Ho2. intros [= Heq]. lia.
Qed.

Lemma clients_do_not_share_default_options_witness :
  let o2 := MoodleWSClient sampleEnv [VStr sample_url; VStr letters_token]
              sample_client_heap in
  member (heap_of o2) sample_client "_options" = VRef 1
  /\ member (heap_of o2) (VRef 2) "_options" = VRef 3.
Proof.
  cbn zeta.
  destruct (clients_do_not_share_default_options sampleEnv
              [VStr sample_url; VStr sample_token]
              [VStr sample_url; VStr letters_token] []
              sample_client sample_client_heap (VRef 2)
              (heap_of (MoodleWSClient sampleEnv
                          [VStr sample_url; VStr letters_token] sample_client_heap)))
    as (_ & H1 & H2 & _);
    [reflexivity | reflexivity | vm_compute; reflexivity
     | vm_compute; reflexivity |].
  split; [exact H1 | exact H2].
Defined.


(** ** The test helper *)

Section TestHelper.
Import Test.

Lemma exclude_lookup_fold (arguments : list string) (m : gmap string Value) x :
  fold_left (fun m a => <[a := VBool true]> m) arguments m !! x
  = if bool_decide (x ∈ arguments) then Some (VBool true) else m !! x.
Proof.
  revert m. induction arguments as [|a args IH]; intros m; cbn [fold_left].
  - case_bool_decide as Hin; [by apply elem_of_nil in Hin|done].
  - rewrite IH. case_bool_decide as H1; case_bool_decide as H2; try done.
    + exfalso. apply H2. by right.
    + apply elem_of_cons in H2 as [->|?]; [|done]. by rewrite lookup_insert_eq.
    + rewrite lookup_insert_ne; [done|]. intros ->. apply H2. by left.
Qed.

Lemma kept_iff (arguments : list string) x :
  negb (truthy (default VUndefined (exclude_lookup arguments !! x))) = true
  <-> x ∉ arguments.
Proof.
  unfold exclude_lookup. rewrite exclude_lookup_fold, lookup_empty.
  case_bool_decide as Hin; simpl; [split; [discriminate|done]|done].
Qed.

Lemma forEach_push_filter ex keys ans :
  forEach_push ex keys ans
  = (ans ++ List.filter
              (fun tn => negb (truthy (default VUndefined (ex !! tn)))) keys)%list.
Proof.
  revert ans. induction keys as [|tn keys IH]; intros ans; simpl.
  - by rewrite app_nil_r.
  - rewrite IH. destruct (negb _); [|done]. by rewrite <- app_assoc.
Qed.

Lemma StronglySorted_filter_bool {A} (R : A -> A -> Prop) (f : A -> bool) l :
  StronglySorted R l -> StronglySorted R (List.filter f l).
Proof.
  induction 1 as [|x l Hs IH Hall]; simpl; [constructor|].
  destruct (f x); [|done]. constructor; [done|].
  apply List.Forall_forall. intros y Hy. apply List.filter_In in Hy as [Hy _].
  by apply (proj1 (List.Forall_forall _ _) Hall).
Qed.

End TestHelper.

(** X17: [dummyBasicTypesExcept] returns exactly the names of the basic
    dummy types that are not among its arguments, in ascending order; without
    arguments it returns all seven. *)
Theorem dummyBasicTypesExcept_spec (arguments : list string) :
  (forall x, x ∈ Test.dummyBasicTypesExcept arguments
             <-> x ∈ Test.DUMMY_BASIC_TYPES_keys /\ x ∉ arguments)
  /\ StronglySorted (fun a b => String.leb a b = true)
       (Test.dummyBasicTypesExcept arguments)
  /\ Test.dummyBasicTypesExcept [] =
     ["arr"; "bool"; "fn"; "num"; "obj"; "str"; "undef"].
Proof.
  unfold Test.dummyBasicTypesExcept.
  split; [|split; [|reflexivity]].
  - intros x. rewrite forEach_push_filter, app_nil_l.
    rewrite list_elem_of_In, List.filter_In, kept_iff, <- list_elem_of_In.
    change (Test.sort Test.DUMMY_BASIC_TYPES_keys)
      with ["arr"; "bool"; "fn"; "num"; "obj"; "str"; "undef"].
    unfold Test.DUMMY_BASIC_TYPES_keys.
    rewrite !elem_of_cons, !elem_of_nil. tauto.
  - rewrite forEach_push_filter, app_nil_l.
    apply StronglySorted_filter_bool.
    change (Test.sort Test.DUMMY_BASIC_TYPES_keys)
      with ["arr"; "bool"; "fn"; "num"; "obj"; "str"; "undef"].
    repeat (constructor; [|repeat constructor]). constructor.
Qed.
